(** * Reindexer: a shallow embedding of [reindex/reindexer.py]

    The class [Reindexer] reads a field mapping from the first non-blank
    line of a file, then creates a target index, copies the documents of
    a source index into it, deletes the source index and adds an alias
    to the target index.

    Python values are modelled by the type [json] (what [json.loads]
    returns), exceptions by the [result] monad, the instance by a record
    whose [__body] field is optional (the attribute exists only after
    [create_mapping] has assigned it), and the search cluster by a
    request handler threaded through a state-and-trace monad. *)

From Stdlib Require Import Ascii.
From stdpp Require Import gmap strings list.

#[local] Set Warnings "-register-all".

(** ** Exceptions and results *)

Inductive exn : Type :=
  | AttributeError (attr : string)
  | KeyError (key : string)
  | FileNotFoundError (path : string)
  | JSONDecodeError
  | RequestError (reason : string)       (* HTTP 400 *)
  | NotFoundError (reason : string)      (* HTTP 404 *)
  | TransportError (status : Z) (reason : string)
  | LocationValueError (message : string).

Inductive result (A : Type) : Type :=
  | Ok (a : A)
  | Raise (e : exn).
Arguments Ok {A} a.
Arguments Raise {A} e.

#[global] Instance result_ret : MRet result := @Ok.
#[global] Instance result_bind : MBind result :=
  λ A B f m, match m with Ok a => f a | Raise e => Raise e end.

Definition is_ok {A} (r : result A) : bool :=
  match r with Ok _ => true | Raise _ => false end.

(** ** Python values

    [JNull] is [None]; [JObj] is a [dict] with string keys, kept as an
    association list in insertion order. *)

Inductive json : Type :=
  | JNull
  | JBool (b : bool)
  | JInt (z : Z)
  | JFloat (literal : string)
  | JStr (s : string)
  | JArr (items : list json)
  | JObj (fields : list (string * json)).

Abbreviation dict := (list (string * json)).

(** [d[k]] *)
Fixpoint dict_get (k : string) (d : dict) : option json :=
  match d with
  | [] => None
  | (k', v) :: d' => if String.eqb k k' then Some v else dict_get k d'
  end.

(** [d[k] = v]: an existing key keeps its position, a new key goes last. *)
Fixpoint dict_set (k : string) (v : json) (d : dict) : dict :=
  match d with
  | [] => [(k, v)]
  | (k', v') :: d' =>
      if String.eqb k k' then (k, v) :: d' else (k', v') :: dict_set k v d'
  end.

(** [x is not None] *)
Definition is_not_None (x : json) : bool :=
  match x with JNull => false | _ => true end.

(** ** Strings: [str.strip], [len] and [readlines]

    Characters are code points below 256. [isspace] is [str.isspace] on
    that range. *)

Definition isspace (c : ascii) : bool :=
  let n := nat_of_ascii c in
  (((9 <=? n) && (n <=? 13)) || ((28 <=? n) && (n <=? 32))
  || (n =? 133) || (n =? 160))%nat.

Fixpoint lstrip (s : string) : string :=
  match s with
  | EmptyString => EmptyString
  | String c s' => if isspace c then lstrip s' else s
  end.

Fixpoint rstrip (s : string) : string :=
  match s with
  | EmptyString => EmptyString
  | String c s' =>
      match rstrip s' with
      | EmptyString => if isspace c then EmptyString else String c EmptyString
      | t => String c t
      end
  end.

Definition strip (s : string) : string := rstrip (lstrip s).

Definition len (s : string) : nat := String.length s.

Definition newline : ascii := ascii_of_nat 10.

(** [fobj.readlines()] on the decoded text of the file: the text is cut
    after every line feed and each line keeps its terminator. *)
Fixpoint readlines (text : string) : list string :=
  match text with
  | EmptyString => []
  | String c rest =>
      if Ascii.eqb c newline then String c EmptyString :: readlines rest
      else match readlines rest with
           | [] => [String c EmptyString]
           | line :: lines => String c line :: lines
           end
  end.

(** A file system: path to decoded text. [open] fails on a missing path. *)
Abbreviation filesystem := (gmap string string).

Definition open (fs : filesystem) (path : string) : result string :=
  match fs !! path with
  | Some text => Ok text
  | None => Raise (FileNotFoundError path)
  end.

(** ** The instance

    The eight constructor fields are always present. [__body] is [None]
    while the attribute has not been assigned; reading it then raises
    [AttributeError]. *)

Record Reindexer : Type := {
  __host : string;
  __port : Z;
  __mapping_file : string;
  __alias : string;
  __source_index : string;
  __target_index : string;
  __source_type : string;
  __target_type : string;
  __body : option json
}.

Definition __init__ (host : string) (port : Z) (mapping_file alias source_index
    target_index source_type target_type : string) : Reindexer :=
  {| __host := host; __port := port; __mapping_file := mapping_file;
     __alias := alias; __source_index := source_index;
     __target_index := target_index; __source_type := source_type;
     __target_type := target_type; __body := None |}.

(** [self.__body = v] *)
Definition set_body (self : Reindexer) (v : json) : Reindexer :=
  {| __host := self.(__host); __port := self.(__port);
     __mapping_file := self.(__mapping_file); __alias := self.(__alias);
     __source_index := self.(__source_index);
     __target_index := self.(__target_index);
     __source_type := self.(__source_type);
     __target_type := self.(__target_type); __body := Some v |}.

(** [self.__body] *)
Definition get_body (self : Reindexer) : result json :=
  match self.(__body) with
  | Some v => Ok v
  | None => Raise (AttributeError "_Reindexer__body")
  end.

Definition getHost (self : Reindexer) : string := self.(__host).
Definition getSourceIndex (self : Reindexer) : string := self.(__source_index).
Definition getTargetIndex (self : Reindexer) : string := self.(__target_index).
Definition getAlias (self : Reindexer) : string := self.(__alias).
Definition getSourceType (self : Reindexer) : string := self.(__source_type).
Definition getTargetType (self : Reindexer) : string := self.(__target_type).
Definition getMapping (self : Reindexer) : result json := get_body self.

(** ** Reading the mapping file *)

Section Mapping.

(** [json.loads]: any loader; it raises on text that is not JSON. *)
Variable json_loads : string → result json.

(** The [for line in fobj.readlines()] loop with its [break]. *)
Fixpoint get_mappings_loop (self : Reindexer) (lines : list string)
    (mapping : dict) : result dict :=
  match lines with
  | [] => Ok mapping
  | line :: lines' =>
      if (0 <? len (strip line))%nat then
        fields_mapping ← json_loads line;
        Ok (dict_set self.(__source_type) fields_mapping mapping)
      else get_mappings_loop self lines' mapping
  end.

Definition __get_mappings (self : Reindexer) (fs : filesystem) : result dict :=
  let mapping := [(self.(__target_type), JObj [])] in
  fobj ← open fs self.(__mapping_file);
  get_mappings_loop self (readlines fobj) mapping.

(** Returns the outcome and the instance as the call leaves it. *)
Definition create_mapping (self : Reindexer) (fs : filesystem)
    : result unit * Reindexer :=
  match __get_mappings self fs with
  | Raise e => (Raise e, self)
  | Ok mapping =>
      let self := set_body self JNull in
      match dict_get self.(__target_type) mapping with
      | None => (Raise (KeyError self.(__target_type)), self)
      | Some v =>
          if is_not_None v
          then (Ok (), set_body self (JObj [("mappings", JObj mapping)]))
          else (Ok (), self)
      end
  end.

End Mapping.

(** ** The cluster

    The client library is external. A cluster is any handler that answers
    a request in a state, either normally or by raising; [reindex] runs in
    a monad that threads the cluster state, stops at the first exception
    and records every request with its outcome and the state it left. *)

Inductive request : Type :=
  | IndicesCreate (index : string) (body : json)
  | HelpersReindex (source_index target_index : string)
  | IndicesDelete (index : string)
  | IndicesUpdateAliases (body : json).

Record event (S : Type) : Type := Event {
  ev_request : request;
  ev_outcome : result unit;
  ev_after : S
}.
Arguments Event {S} _ _ _.
Arguments ev_request {S} _.
Arguments ev_outcome {S} _.
Arguments ev_after {S} _.

Definition handler (S : Type) : Type := request → S → result unit * S.

Definition cluster_m (S A : Type) : Type := S → result A * list (event S) * S.

#[global] Instance cluster_ret {S} : MRet (cluster_m S) :=
  λ A a s, (Ok a, [], s).
#[global] Instance cluster_bind {S} : MBind (cluster_m S) :=
  λ A B f m s,
    match m s with
    | (Ok a, tr, s') => let '(r, tr', s'') := f a s' in (r, tr ++ tr', s'')
    | (Raise e, tr, s') => (Raise e, tr, s')
    end.

Definition lift {S A} (r : result A) : cluster_m S A := λ s, (r, [], s).

Definition send {S} (handle : handler S) (rq : request) : cluster_m S unit :=
  λ s, let '(r, s') := handle rq s in (r, [Event rq r s'], s').

(** [d[k].append(x)] for a list held in a dict. *)
Definition dict_append (k : string) (x : json) (d : dict) : dict :=
  match dict_get k d with
  | Some (JArr items) => dict_set k (JArr (items ++ [x])) d
  | _ => d
  end.

Section Reindex.

Context {S : Type}.
Variable handle : handler S.

(** Lines 52 to 68 of the method: what [reindex] does once the two
    client objects of lines 46 to 48 exist. The arguments of [create] are
    evaluated before the call. The method from its first line, with the
    construction of the clients, is [reindex_method] below. *)
Definition reindex (self : Reindexer) : cluster_m S unit :=
  body ← lift (get_body self);
  send handle (IndicesCreate self.(__target_index) body);;
  send handle (HelpersReindex self.(__source_index) self.(__target_index));;
  let alias := [("actions", JArr [])] in
  let add_action :=
    JObj [("add", JObj [("index", JStr self.(__target_index));
                        ("alias", JStr self.(__alias))])] in
  let alias := dict_append "actions" add_action alias in
  send handle (IndicesDelete self.(__source_index));;
  send handle (IndicesUpdateAliases (JObj alias)).

End Reindex.

Section Method.

Context {S : Type}.

(** [Elasticsearch([{"host": ..., "port": ...}])] and
    [IndicesClient(...)], lines 46 to 48. The constructors belong to the
    client library: they send no request, and they may refuse the host or
    the port and raise. Any such constructor is allowed. *)
Variable new_clients : string → Z → result unit.
Variable handle : handler S.

(** The method [reindex] from its first line. *)
Definition reindex_method (self : Reindexer) : cluster_m S unit :=
  lift (new_clients self.(__host) self.(__port));;
  reindex handle self.

End Method.

(** A reference constructor: the connection pool of the client refuses an
    empty host; any other host and any port are taken. *)
Definition ref_clients : string → Z → result unit := λ host _,
  match host with
  | EmptyString => Raise (LocationValueError "No host specified.")
  | _ => Ok ()
  end.

(** A name that the client and the cluster take literally, as the name of
    one index: a lowercase letter or a digit, followed by lowercase
    letters, digits, underscores and hyphens. The empty name, wild cards,
    lists, [_all] and the other forms of an index expression are not of
    this shape. *)
Definition name_start (c : ascii) : bool :=
  let n := nat_of_ascii c in
  (((97 <=? n) && (n <=? 122)) || ((48 <=? n) && (n <=? 57)))%nat.

Definition name_char (c : ascii) : bool :=
  let n := nat_of_ascii c in
  (name_start c || (n =? 95) || (n =? 45))%nat.

Fixpoint name_chars (s : string) : bool :=
  match s with
  | EmptyString => true
  | String c rest => name_char c && name_chars rest
  end.

Definition concrete_name (s : string) : bool :=
  match s with
  | EmptyString => false
  | String c rest => name_start c && name_chars rest
  end.

(** ** A reference [json.loads]

    The theorems about the mapping file hold for every loader. This one
    is used where a concrete file is evaluated. It follows the decoder of
    the standard library on code points below 256: leading and trailing
    JSON white space, the literals (with [NaN] and the infinities), numbers
    (an integer becomes [JInt], a number with a fraction or an exponent is
    kept as its text), strings with their escapes (a [\u] escape above
    [00FF] is outside the character range and is refused), arrays, and
    objects, where a repeated key keeps its first position and its last
    value. Anything else raises. *)

Module JsonRef.

Definition code (c : ascii) : nat := nat_of_ascii c.

Definition is_ws (c : ascii) : bool :=
  ((code c =? 32) || (code c =? 9) || (code c =? 10) || (code c =? 13))%nat.

Definition is_digit (c : ascii) : bool :=
  ((48 <=? code c) && (code c <=? 57))%nat.

Fixpoint skip_ws (s : string) : string :=
  match s with
  | String c s' => if is_ws c then skip_ws s' else s
  | EmptyString => EmptyString
  end.

Fixpoint take_digits (s : string) : string * string :=
  match s with
  | String c s' =>
      if is_digit c
      then let '(ds, r) := take_digits s' in (String c ds, r)
      else (EmptyString, s)
  | EmptyString => (EmptyString, EmptyString)
  end.

Fixpoint digits_value (acc : Z) (ds : string) : Z :=
  match ds with
  | String c ds' => digits_value (10 * acc + Z.of_nat (code c - 48)) ds'
  | EmptyString => acc
  end.

(** Integer part: a zero, or a non-zero digit and more digits. *)
Definition scan_int (s : string) : option (string * string) :=
  match s with
  | String c s' =>
      if (code c =? 48)%nat then Some (String c EmptyString, s')
      else if is_digit c then Some (take_digits s)
      else None
  | EmptyString => None
  end.

(** Optional fraction: a dot and at least one digit. *)
Definition scan_frac (s : string) : string * string :=
  match s with
  | String c s' =>
      if (code c =? 46)%nat then
        match take_digits s' with
        | (EmptyString, _) => (EmptyString, s)
        | (ds, r) => (String c ds, r)
        end
      else (EmptyString, s)
  | EmptyString => (EmptyString, s)
  end.

(** Optional exponent: e or E, an optional sign, at least one digit. *)
Definition scan_exp (s : string) : string * string :=
  match s with
  | String e s' =>
      if ((code e =? 101) || (code e =? 69))%nat then
        let '(sign, s'') :=
          match s' with
          | String g r =>
              if ((code g =? 45) || (code g =? 43))%nat
              then (String g EmptyString, r) else (EmptyString, s')
          | EmptyString => (EmptyString, s')
          end in
        match take_digits s'' with
        | (EmptyString, _) => (EmptyString, s)
        | (ds, r) => (String e (sign +:+ ds), r)
        end
      else (EmptyString, s)
  | EmptyString => (EmptyString, s)
  end.

Definition scan_number (s : string) : option (json * string) :=
  let '(neg, s1) :=
    match s with
    | String c r => if (code c =? 45)%nat then (true, r) else (false, s)
    | EmptyString => (false, s)
    end in
  '(ds, s2) ← scan_int s1;
  let '(frac, s3) := scan_frac s2 in
  let '(exp, s4) := scan_exp s3 in
  match frac, exp with
  | EmptyString, EmptyString =>
      let v := digits_value 0 ds in
      Some (JInt (if neg then (- v)%Z else v), s4)
  | _, _ =>
      Some (JFloat ((if neg then "-" else "") +:+ ds +:+ frac +:+ exp), s4)
  end.

Definition hex_value (c : ascii) : option nat :=
  let n := code c in
  if is_digit c then Some (n - 48)
  else if ((97 <=? n) && (n <=? 102))%nat then Some (n - 87)
  else if ((65 <=? n) && (n <=? 70))%nat then Some (n - 55)
  else None.

Definition scan_escape (s : string) : option (ascii * string) :=
  match s with
  | String c r =>
      let n := code c in
      if ((n =? 34) || (n =? 92) || (n =? 47))%nat then Some (c, r)
      else if (n =? 98)%nat then Some (ascii_of_nat 8, r)
      else if (n =? 102)%nat then Some (ascii_of_nat 12, r)
      else if (n =? 110)%nat then Some (ascii_of_nat 10, r)
      else if (n =? 114)%nat then Some (ascii_of_nat 13, r)
      else if (n =? 116)%nat then Some (ascii_of_nat 9, r)
      else if (n =? 117)%nat then
        match r with
        | String h1 (String h2 (String h3 (String h4 r'))) =>
            a ← hex_value h1; b ← hex_value h2;
            c ← hex_value h3; d ← hex_value h4;
            if ((a =? 0) && (b =? 0))%nat
            then Some (ascii_of_nat (16 * c + d), r') else None
        | _ => None
        end
      else None
  | EmptyString => None
  end.

(** The text after an opening quote, up to the closing one. *)
Fixpoint scan_string (fuel : nat) (s : string) : option (string * string) :=
  match fuel with
  | O => None
  | Datatypes.S fuel =>
      match s with
      | EmptyString => None
      | String c r =>
          if (code c =? 34)%nat then Some (EmptyString, r)
          else if (code c =? 92)%nat then
            '(x, r') ← scan_escape r;
            '(t, r'') ← scan_string fuel r';
            Some (String x t, r'')
          else if (code c <? 32)%nat then None
          else '(t, r') ← scan_string fuel r; Some (String c t, r')
      end
  end.

Fixpoint strip_prefix (word s : string) : option string :=
  match word, s with
  | EmptyString, _ => Some s
  | String a word', String b s' =>
      if Ascii.eqb a b then strip_prefix word' s' else None
  | String _ _, EmptyString => None
  end.

Definition literal (word : string) (v : json) (s : string)
    : option (json * string) :=
  r ← strip_prefix word s; Some (v, r).

Fixpoint scan_value (fuel : nat) (s : string) : option (json * string) :=
  match fuel with
  | O => None
  | Datatypes.S fuel =>
      match s with
      | EmptyString => None
      | String c r =>
          let n := code c in
          if (n =? 34)%nat then
            '(t, r') ← scan_string (String.length r + 1) r; Some (JStr t, r')
          else if (n =? 123)%nat then
            match skip_ws r with
            | String c' r' =>
                if (code c' =? 125)%nat then Some (JObj [], r')
                else scan_members fuel (skip_ws r) []
            | EmptyString => None
            end
          else if (n =? 91)%nat then
            match skip_ws r with
            | String c' r' =>
                if (code c' =? 93)%nat then Some (JArr [], r')
                else scan_items fuel (skip_ws r) []
            | EmptyString => None
            end
          else if (n =? 110)%nat then literal "null" JNull s
          else if (n =? 116)%nat then literal "true" (JBool true) s
          else if (n =? 102)%nat then literal "false" (JBool false) s
          else
            match scan_number s with
            | Some v => Some v
            | None =>
                if (n =? 78)%nat then literal "NaN" (JFloat "NaN") s
                else if (n =? 73)%nat
                then literal "Infinity" (JFloat "Infinity") s
                else if (n =? 45)%nat
                then literal "-Infinity" (JFloat "-Infinity") s
                else None
            end
      end
  end
with scan_items (fuel : nat) (s : string) (acc : list json)
    : option (json * string) :=
  match fuel with
  | O => None
  | Datatypes.S fuel =>
      '(v, r) ← scan_value fuel s;
      match skip_ws r with
      | String c r' =>
          if (code c =? 93)%nat then Some (JArr (acc ++ [v]), r')
          else if (code c =? 44)%nat
          then scan_items fuel (skip_ws r') (acc ++ [v])
          else None
      | EmptyString => None
      end
  end
with scan_members (fuel : nat) (s : string) (acc : dict)
    : option (json * string) :=
  match fuel with
  | O => None
  | Datatypes.S fuel =>
      match s with
      | String q r =>
          if (code q =? 34)%nat then
            '(k, r1) ← scan_string (String.length r + 1) r;
            match skip_ws r1 with
            | String c r2 =>
                if (code c =? 58)%nat then
                  '(v, r3) ← scan_value fuel (skip_ws r2);
                  match skip_ws r3 with
                  | String c' r4 =>
                      if (code c' =? 125)%nat
                      then Some (JObj (dict_set k v acc), r4)
                      else if (code c' =? 44)%nat
                      then scan_members fuel (skip_ws r4) (dict_set k v acc)
                      else None
                  | EmptyString => None
                  end
                else None
            | EmptyString => None
            end
          else None
      | EmptyString => None
      end
  end.

Definition loads (s : string) : result json :=
  match scan_value (2 * String.length s + 2) (skip_ws s) with
  | Some (v, r) =>
      match skip_ws r with
      | EmptyString => Ok v
      | _ => Raise JSONDecodeError
      end
  | None => Raise JSONDecodeError
  end.

End JsonRef.

Definition dq : string := String (ascii_of_nat 34) EmptyString.

(** ** A reference cluster

    The state of the cluster as the four requests see it: every index
    has the body it was created with, its documents by identifier and the
    aliases bound to it. Deleting an index drops its bindings. Requests
    are answered as the search engine documents them: creating a name
    that exists is refused (400) whatever the body, an unknown index is
    reported (404), an alias may not take the name of an index (400), and
    the actions of one alias update are applied all or none.

    Index names in requests are concrete names ([concrete_name]): the
    empty name, wild cards, lists and alias names in place of an index
    name are outside the model and are answered as unknown indices. Bulk writes are taken to succeed. What
    names and bodies the cluster accepts at creation depends on its
    version and is left open ([validate]). *)

Record es_index : Type := EsIndex {
  ix_body : json;
  ix_docs : gmap string json;
  ix_aliases : gset string
}.

Abbreviation es_state := (gmap string es_index).

(** The indices an alias resolves to. *)
Definition resolve (alias : string) (c : es_state) : gset string :=
  dom (filter (λ kv : string * es_index, alias ∈ ix_aliases kv.2) c).

Inductive alias_action : Type :=
  | AddAlias (index alias : string)
  | RemoveAlias (index alias : string).

Definition decode_action (j : json) : option alias_action :=
  match j with
  | JObj [(kind, JObj args)] =>
      match dict_get "index" args, dict_get "alias" args with
      | Some (JStr i), Some (JStr a) =>
          if String.eqb kind "add" then Some (AddAlias i a)
          else if String.eqb kind "remove" then Some (RemoveAlias i a)
          else None
      | _, _ => None
      end
  | _ => None
  end.

Definition decode_actions (body : json) : option (list alias_action) :=
  match body with
  | JObj d =>
      match dict_get "actions" d with
      | Some (JArr items) => mapM decode_action items
      | _ => None
      end
  | _ => None
  end.

(** The aliases an index body asks for at creation. *)
Definition body_aliases (body : json) : gset string :=
  match body with
  | JObj d =>
      match dict_get "aliases" d with
      | Some (JObj als) => list_to_set (als.*1)
      | _ => ∅
      end
  | _ => ∅
  end.

Definition bind_alias (alias : string) (ix : es_index) : es_index :=
  EsIndex ix.(ix_body) ix.(ix_docs) ({[alias]} ∪ ix.(ix_aliases)).

Definition unbind_alias (alias : string) (ix : es_index) : es_index :=
  EsIndex ix.(ix_body) ix.(ix_docs) (ix.(ix_aliases) ∖ {[alias]}).

Definition put_docs (docs : gmap string json) (ix : es_index) : es_index :=
  EsIndex ix.(ix_body) (docs ∪ ix.(ix_docs)) ix.(ix_aliases).

Definition apply_action (c : es_state) (a : alias_action) : result es_state :=
  match a with
  | AddAlias i al =>
      match c !! i with
      | None => Raise (NotFoundError "index_not_found_exception")
      | Some ix =>
          match c !! al with
          | Some _ => Raise (RequestError "invalid_alias_name_exception")
          | None => Ok (<[i := bind_alias al ix]> c)
          end
      end
  | RemoveAlias i al =>
      match c !! i with
      | None => Raise (NotFoundError "index_not_found_exception")
      | Some ix =>
          if bool_decide (al ∈ ix.(ix_aliases))
          then Ok (<[i := unbind_alias al ix]> c)
          else Raise (NotFoundError "aliases_not_found_exception")
      end
  end.

Fixpoint apply_actions (c : es_state) (actions : list alias_action)
    : result es_state :=
  match actions with
  | [] => Ok c
  | a :: actions' => c' ← apply_action c a; apply_actions c' actions'
  end.

Section ReferenceCluster.

Variable validate : string → json → result unit.

Definition es_handle : handler es_state := λ rq c,
  match rq with
  | IndicesCreate name body =>
      match c !! name with
      | Some _ => (Raise (RequestError "resource_already_exists_exception"), c)
      | None =>
          if bool_decide (resolve name c = ∅) then
            match validate name body with
            | Ok _ => (Ok (), <[name := EsIndex body ∅ (body_aliases body)]> c)
            | Raise e => (Raise e, c)
            end
          else (Raise (RequestError "invalid_index_name_exception"), c)
      end
  | HelpersReindex source target =>
      match c !! source with
      | None => (Raise (NotFoundError "index_not_found_exception"), c)
      | Some src =>
          match c !! target with
          | Some tgt => (Ok (), <[target := put_docs src.(ix_docs) tgt]> c)
          | None =>
              if bool_decide (resolve target c = ∅) then
                if bool_decide (src.(ix_docs) = ∅) then (Ok (), c)
                else (Ok (), <[target := EsIndex JNull src.(ix_docs) ∅]> c)
              else (Raise (NotFoundError "index_not_found_exception"), c)
          end
      end
  | IndicesDelete name =>
      match c !! name with
      | None => (Raise (NotFoundError "index_not_found_exception"), c)
      | Some _ => (Ok (), delete name c)
      end
  | IndicesUpdateAliases body =>
      match decode_actions body with
      | None | Some [] => (Raise (RequestError "parse_exception"), c)
      | Some actions =>
          match apply_actions c actions with
          | Ok c' => (Ok (), c')
          | Raise e => (Raise e, c)
          end
      end
  end.

End ReferenceCluster.

(** A cluster that accepts every name and body. *)
Definition lenient : string → json → result unit := λ _ _, Ok ().

(** ** A scripted cluster

    The state is the list of answers still to give, one per request, as a
    test double would be set up; when the script is exhausted every
    request succeeds. *)

Definition scripted : handler (list (result unit)) := λ _ script,
  match script with
  | [] => (Ok (), [])
  | answer :: script' => (answer, script')
  end.

(** ** Runs: outcome, trace and the four requests *)

Definition outcome {S A} (run : result A * list (event S) * S) : result A :=
  run.1.1.
Definition trace {S A} (run : result A * list (event S) * S) : list (event S) :=
  run.1.2.
Definition final {S A} (run : result A * list (event S) * S) : S := run.2.

Definition create_request (self : Reindexer) (body : json) : request :=
  IndicesCreate self.(__target_index) body.
Definition copy_request (self : Reindexer) : request :=
  HelpersReindex self.(__source_index) self.(__target_index).
Definition delete_request (self : Reindexer) : request :=
  IndicesDelete self.(__source_index).
(** The body of the alias update: one action, adding the alias to the
    target index. *)
Definition alias_body (self : Reindexer) : json :=
  JObj [("actions",
         JArr [JObj [("add", JObj [("index", JStr self.(__target_index));
                                   ("alias", JStr self.(__alias))])]])].
Definition alias_request (self : Reindexer) : request :=
  IndicesUpdateAliases (alias_body self).

(** The order the specification asks for: whenever the delete of the
    source index is issued, the alias update was issued and confirmed
    earlier in the run. *)
Definition alias_added_before_delete {S} (self : Reindexer)
    (tr : list (event S)) : Prop :=
  ∀ j d, tr !! j = Some d → ev_request d = delete_request self →
    ∃ i a, (i < j)%nat ∧ tr !! i = Some a ∧
           ev_request a = alias_request self ∧ ev_outcome a = Ok ().

(** A line counts as empty when it has no character besides white space;
    this is what [len(line.strip()) > 0] tests. *)
Fixpoint blank (s : string) : bool :=
  match s with
  | EmptyString => true
  | String c s' => isspace c && blank s'
  end.

Definition first_non_blank (lines : list string) : option string :=
  List.find (λ line, negb (blank line)) lines.

(** The mapping as the specification words it: built from the first
    non-blank line alone, parsed as one JSON document. *)
Definition mapping_of_first_line (json_loads : string → result json)
    (self : Reindexer) (first : option string) : result dict :=
  match first with
  | None => Ok [(self.(__target_type), JObj [])]
  | Some line =>
      fields ← json_loads line;
      Ok (dict_set self.(__source_type) fields [(self.(__target_type), JObj [])])
  end.

(** A sequence of method calls on one instance. A call that raises leaves
    the instance as it is at that point and the caller goes on; every
    [create_mapping] sees the file system of its moment. *)
Inductive call : Type :=
  | CallCreateMapping (fs : filesystem)
  | CallReindex.

Fixpoint run_calls {S} (json_loads : string → result json)
    (handle : handler S) (calls : list call) (self : Reindexer) (s : S)
    : Reindexer * S :=
  match calls with
  | [] => (self, s)
  | CallCreateMapping fs :: calls' =>
      run_calls json_loads handle calls' (create_mapping json_loads self fs).2 s
  | CallReindex :: calls' =>
      run_calls json_loads handle calls' self (final (reindex handle self s))
  end.

(** What the specification says of [create_mapping] on a readable file:
    the body is the dict that holds the mapping under the key mappings. *)
Definition body_is_mappings (json_loads : string → result json)
    (self : Reindexer) (fs : filesystem) : Prop :=
  ∃ mapping, __get_mappings json_loads self fs = Ok mapping ∧
    (create_mapping json_loads self fs).2.(__body)
    = Some (JObj [("mappings", JObj mapping)]).

(** ** Sample data *)

Definition orders : Reindexer :=
  __init__ "localhost" 9200 "mapping.json" "orders" "orders_v1" "orders_v2"
           "order" "order".

Definition orders_mapping : string :=
  String newline
    ("  " +:+ String newline
       ("{" +:+ dq +:+ "properties" +:+ dq +:+ ": {" +:+ dq +:+ "total" +:+ dq
        +:+ ": {" +:+ dq +:+ "type" +:+ dq +:+ ": " +:+ dq +:+ "long" +:+ dq
        +:+ "}}}" +:+ String newline "not json at all")).

Definition orders_fs : filesystem := {[ "mapping.json" := orders_mapping ]}.

Definition null_fs : filesystem :=
  {[ "mapping.json" := "null" +:+ String newline "" ]}.

(** [orders] after [create_mapping] on [orders_fs]. *)
Definition orders_ready : Reindexer :=
  (create_mapping JsonRef.loads orders orders_fs).2.

(** The alias is bound to the source index and to an older index. *)
Definition cluster0 : es_state :=
  {[ "orders_v1" := EsIndex JNull {[ "1" := JInt 10; "2" := JInt 20 ]} {[ "orders" ]};
     "orders_v0" := EsIndex JNull ∅ {[ "orders" ]} ]}.

(** The alias is bound to the source index only. *)
Definition cluster1 : es_state :=
  {[ "orders_v1" := EsIndex JNull {[ "1" := JInt 10 ]} {[ "orders" ]} ]}.

(** The body [create_mapping] builds from [orders_fs]. *)
Definition orders_body : json :=
  JObj [("mappings",
    JObj [("order",
      JObj [("properties", JObj [("total", JObj [("type", JStr "long")])])])])].

(** The target index exists already, with the very body of [orders_ready]. *)
Definition cluster2 : es_state :=
  {[ "orders_v1" := EsIndex JNull {[ "1" := JInt 10 ]} {[ "orders" ]};
     "orders_v2" := EsIndex orders_body ∅ ∅ ]}.

(** A run on the reference cluster, and its events. *)
Definition run1 : result unit * list (event es_state) * es_state :=
  reindex (es_handle lenient) orders_ready cluster1.

Definition run1_delete : event es_state :=
  Event (delete_request orders_ready) (Ok ())
    {[ "orders_v2" := EsIndex orders_body {[ "1" := JInt 10 ]} ∅ ]}.

Definition run1_alias : event es_state :=
  Event (alias_request orders_ready) (Ok ())
    {[ "orders_v2" := EsIndex orders_body {[ "1" := JInt 10 ]} {[ "orders" ]} ]}.

(** The source index disappears between the copy and the delete. *)
Definition vanished : list (result unit) :=
  [Ok (); Ok (); Raise (NotFoundError "index_not_found_exception")].

(** The four requests of a complete run, in the order of the code. *)
Definition four_requests (self : Reindexer) (body : json) : list request :=
  [create_request self body; copy_request self; delete_request self;
   alias_request self].

(** The requests of a trace with their answers. *)
Definition answers {S} (tr : list (event S)) : list (request * result unit) :=
  map (λ e, (ev_request e, ev_outcome e)) tr.

(** Two instances built from the same constructor arguments; the body is
    left out. *)
Definition same_fields (a b : Reindexer) : Prop :=
  a.(__host) = b.(__host) ∧ a.(__port) = b.(__port) ∧
  a.(__mapping_file) = b.(__mapping_file) ∧ a.(__alias) = b.(__alias) ∧
  a.(__source_index) = b.(__source_index) ∧
  a.(__target_index) = b.(__target_index) ∧
  a.(__source_type) = b.(__source_type) ∧
  a.(__target_type) = b.(__target_type).

(** A file of blank lines only, and a file system without the file. *)
Definition blank_fs : filesystem :=
  {[ "mapping.json" := String newline ("  " +:+ String newline "") ]}.

Definition empty_fs : filesystem := ∅.

(** Source and target type differ. *)
Definition invoices : Reindexer :=
  __init__ "localhost" 9200 "mapping.json" "invoices" "invoices_v1"
           "invoices_v2" "invoice_old" "invoice".

(** A line that ends with its only line feed, and a line with one. *)
Fixpoint terminated (line : string) : bool :=
  match line with
  | EmptyString => false
  | String c rest =>
      if Ascii.eqb c newline then
        match rest with EmptyString => true | _ => false end
      else terminated rest
  end.

Fixpoint has_newline (line : string) : bool :=
  match line with
  | EmptyString => false
  | String c rest => Ascii.eqb c newline || has_newline rest
  end.

(** The alias has the name of the target index. *)
Definition misnamed : Reindexer :=
  set_body
    (__init__ "localhost" 9200 "mapping.json" "orders_v2" "orders_v1"
              "orders_v2" "order" "order")
    orders_body.

(** Source and target index are the same. *)
Definition in_place : Reindexer :=
  set_body
    (__init__ "localhost" 9200 "mapping.json" "orders" "orders_v1"
              "orders_v1" "order" "order")
    orders_body.

(** No index at all. *)
Definition empty_cluster : es_state := ∅.

(** The mapping [__get_mappings] returns for [invoices] on [orders_fs]. *)
Definition invoices_mapping : dict :=
  [("invoice", JObj []);
   ("invoice_old",
    JObj [("properties", JObj [("total", JObj [("type", JStr "long")])])])].

(** White space at the first and at the last position of a string. *)
Definition starts_with_space (s : string) : bool :=
  match s with
  | EmptyString => false
  | String c _ => isspace c
  end.

Fixpoint ends_with_space (s : string) : bool :=
  match s with
  | EmptyString => false
  | String c EmptyString => isspace c
  | String _ rest => ends_with_space rest
  end.

(** An instance with an empty host. *)
Definition no_host : Reindexer :=
  __init__ "" 9200 "mapping.json" "orders" "orders_v1" "orders_v2"
           "order" "order".

(** * Properties *)

Example loads_null : JsonRef.loads "null" = Ok JNull.
Proof. reflexivity. Qed.

Example loads_object :
  JsonRef.loads ("{" +:+ dq +:+ "properties" +:+ dq +:+ ": {" +:+ dq +:+ "n"
                 +:+ dq +:+ ": [1, -2.5e3, true]}}")
  = Ok (JObj [("properties",
         JObj [("n", JArr [JInt 1; JFloat "-2.5e3"; JBool true])])]).
Proof. vm_compute. reflexivity. Qed.

Example loads_garbage : JsonRef.loads "[1,]" = Raise JSONDecodeError.
Proof. reflexivity. Qed.


(** ** The mapping file *)

Lemma rstrip_empty (s : string) : rstrip s = EmptyString ↔ blank s = true.
Proof.
  induction s as [|c s IH]; simpl; [done|].
  destruct (rstrip s) eqn:Hr.
  - destruct (isspace c); simpl.
    + by rewrite <- IH.
    + split; intros; discriminate.
  - split; [discriminate|].
    intros [_ Hb]%andb_true_iff. apply IH in Hb. discriminate.
Qed.

Lemma blank_lstrip (s : string) : blank (lstrip s) = blank s.
Proof.
  induction s as [|c s IH]; simpl; [done|].
  destruct (isspace c) eqn:Hc; simpl; [done|by rewrite Hc].
Qed.

(** The test of the loop is the test for a non-blank line. *)
Lemma strip_test (line : string) :
  (0 <? len (strip line))%nat = negb (blank line).
Proof.
  unfold strip, len. rewrite <- (blank_lstrip line).
  destruct (rstrip (lstrip line)) eqn:Hr; simpl.
  - apply rstrip_empty in Hr. by rewrite Hr.
  - destruct (blank (lstrip line)) eqn:Hb; [|done].
    apply rstrip_empty in Hb. congruence.
Qed.

Section MappingFacts.

Variable json_loads : string → result json.

Lemma get_mappings_loop_find (self : Reindexer) (lines : list string) :
  get_mappings_loop json_loads self lines [(self.(__target_type), JObj [])]
  = mapping_of_first_line json_loads self (first_non_blank lines).
Proof.
  induction lines as [|line lines IH]; simpl; [done|].
  rewrite strip_test. by destruct (negb (blank line)).
Qed.

Lemma get_mappings_read (self : Reindexer) (fs : filesystem) (text : string) :
  fs !! self.(__mapping_file) = Some text →
  __get_mappings json_loads self fs
  = mapping_of_first_line json_loads self (first_non_blank (readlines text)).
Proof.
  intros Hf. unfold __get_mappings, open. rewrite Hf. simpl.
  apply get_mappings_loop_find.
Qed.

(** C5. The mapping that [__get_mappings] returns for a readable file is
    the one built from the first non-blank line of the file, parsed as
    one JSON document; two files with the same first non-blank line give
    the same mapping, whatever follows that line. *)
Theorem mapping_from_first_non_blank_line (self : Reindexer)
    (fs : filesystem) (text : string) :
  fs !! self.(__mapping_file) = Some text →
  __get_mappings json_loads self fs
  = mapping_of_first_line json_loads self (first_non_blank (readlines text))
  ∧ ∀ (fs' : filesystem) (text' : string),
      fs' !! self.(__mapping_file) = Some text' →
      first_non_blank (readlines text') = first_non_blank (readlines text) →
      __get_mappings json_loads self fs' = __get_mappings json_loads self fs.
Proof.
  intros Hf. split; [by apply get_mappings_read|].
  intros fs' text' Hf' Heq.
  rewrite (get_mappings_read _ _ _ Hf), (get_mappings_read _ _ _ Hf').
  by rewrite Heq.
Qed.

(** C9, as the code has it. For a readable mapping file:
    with no non-blank line the body is the mapping that binds
    [target_type] to the empty dict; when the first non-blank line does
    not parse, [create_mapping] raises and assigns nothing; when it
    parses and [source_type] differs from [target_type], [target_type]
    stays bound to the empty dict and the body is set; when the two
    types are equal, [target_type] is bound to the parsed value, of
    whatever JSON kind, and the body is set unless that value is
    [None] (JSON null), in which case the body is [None]. *)
Theorem create_mapping_body (self : Reindexer) (fs : filesystem)
    (text : string) :
  fs !! self.(__mapping_file) = Some text →
  let T := self.(__target_type) in
  let S := self.(__source_type) in
  create_mapping json_loads self fs =
  match first_non_blank (readlines text) with
  | None => (Ok (), set_body self (JObj [("mappings", JObj [(T, JObj [])])]))
  | Some line =>
      match json_loads line with
      | Raise e => (Raise e, self)
      | Ok fields =>
          if String.eqb S T then
            if is_not_None fields
            then (Ok (), set_body self (JObj [("mappings", JObj [(T, fields)])]))
            else (Ok (), set_body self JNull)
          else
            (Ok (), set_body self
                      (JObj [("mappings", JObj [(T, JObj []); (S, fields)])]))
      end
  end.
Proof.
  intros Hf T S. unfold create_mapping.
  rewrite (get_mappings_read _ _ _ Hf).
  destruct (first_non_blank (readlines text)) as [line|]; simpl.
  - destruct (json_loads line) as [fields|e]; simpl; [|done].
    fold T S. destruct (String.eqb S T) eqn:HST; simpl.
    + apply String.eqb_eq in HST. rewrite HST, String.eqb_refl.
      by destruct (is_not_None fields).
    + rewrite String.eqb_refl. done.
  - fold T. rewrite String.eqb_refl. done.
Qed.

End MappingFacts.

Lemma mapping_from_first_non_blank_line_witness :
  orders_fs !! orders.(__mapping_file) = Some orders_mapping ∧
  (__get_mappings JsonRef.loads orders orders_fs
   = mapping_of_first_line JsonRef.loads orders
       (first_non_blank (readlines orders_mapping))
   ∧ ∀ (fs' : filesystem) (text' : string),
       fs' !! orders.(__mapping_file) = Some text' →
       first_non_blank (readlines text') = first_non_blank (readlines orders_mapping) →
       __get_mappings JsonRef.loads orders fs'
       = __get_mappings JsonRef.loads orders orders_fs).
Proof.
  split; [reflexivity|].
  apply (mapping_from_first_non_blank_line JsonRef.loads orders orders_fs
           orders_mapping).
  reflexivity.
Defined.

(** The sample file: two blank lines, the mapping, and a line that is
    not JSON and is never parsed. *)
Example orders_file_mapping :
  __get_mappings JsonRef.loads orders orders_fs
  = Ok [("order",
         JObj [("properties", JObj [("total", JObj [("type", JStr "long")])])])].
Proof. vm_compute. reflexivity. Qed.

Lemma create_mapping_body_witness :
  orders_fs !! orders.(__mapping_file) = Some orders_mapping ∧
  create_mapping JsonRef.loads orders orders_fs
  = (Ok (), set_body orders
      (JObj [("mappings",
        JObj [("order",
          JObj [("properties",
                 JObj [("total", JObj [("type", JStr "long")])])])])])).
Proof.
  split; [reflexivity|].
  rewrite (create_mapping_body JsonRef.loads orders orders_fs orders_mapping);
    [|reflexivity].
  vm_compute. reflexivity.
Defined.

(** C9 fails on a file whose first non-blank line is the JSON document
    null, when source and target type are the same: [create_mapping]
    returns normally and the body is [None]. *)
Lemma create_mapping_body_none :
  null_fs !! orders.(__mapping_file) = Some ("null" +:+ String newline "") ∧
  create_mapping JsonRef.loads orders null_fs = (Ok (), set_body orders JNull) ∧
  ¬ body_is_mappings JsonRef.loads orders null_fs.
Proof.
  split; [reflexivity|]. split; [reflexivity|].
  intros (mapping & _ & Hbody). vm_compute in Hbody. discriminate.
Qed.

(** ** The instance *)

Lemma run_calls_reindex_only {S} (json_loads : string → result json)
    (handle : handler S) (n : nat) (self : Reindexer) (s : S) :
  (run_calls json_loads handle (replicate n CallReindex) self s).1 = self.
Proof.
  revert s. induction n as [|n IH]; intros s; simpl; [done|]. apply IH.
Qed.

(** C8, as the code has it. On an instance as the constructor leaves it,
    and after any number of [reindex] calls made before [create_mapping],
    [getMapping] raises [AttributeError] for the body, and [reindex] sends
    no request and raises: the error of the construction of the clients
    when the library refuses the host or the port, and [AttributeError]
    for the body when the clients are built. *)
Theorem reindex_before_create_mapping {S}
    (json_loads : string → result json)
    (new_clients : string → Z → result unit) (handle : handler S)
    (host : string) (port : Z)
    (mapping_file alias source_index target_index source_type target_type : string)
    (n : nat) (s0 s : S) :
  let self := (run_calls json_loads handle (replicate n CallReindex)
                 (__init__ host port mapping_file alias source_index
                           target_index source_type target_type) s0).1 in
  reindex_method new_clients handle self s
  = (match new_clients host port with
     | Ok _ => Raise (AttributeError "_Reindexer__body")
     | Raise e => Raise e
     end, [], s)
  ∧ getMapping self = Raise (AttributeError "_Reindexer__body").
Proof.
  intros self. subst self. rewrite run_calls_reindex_only.
  split; [|done]. unfold reindex_method, mbind, cluster_bind, lift. simpl.
  by destruct (new_clients host port) as [[]|e].
Qed.

(** C8 fails for an instance with an empty host: the construction of the
    clients raises before the body is read, and [reindex] ends with that
    error, not with [AttributeError]. *)
Lemma reindex_with_empty_host :
  no_host.(__body) = None ∧
  reindex_method ref_clients (es_handle lenient) no_host cluster1
  = (Raise (LocationValueError "No host specified."), [], cluster1) ∧
  outcome (reindex_method ref_clients (es_handle lenient) no_host cluster1)
  ≠ Raise (AttributeError "_Reindexer__body").
Proof. split; [done|]. split; [done|]. discriminate. Qed.

(** Only [create_mapping] assigns the body, and only when
    [__get_mappings] has returned. *)
Lemma create_mapping_fields (json_loads : string → result json)
    (self : Reindexer) (fs : filesystem) :
  let self' := (create_mapping json_loads self fs).2 in
  self'.(__host) = self.(__host) ∧ self'.(__port) = self.(__port) ∧
  self'.(__mapping_file) = self.(__mapping_file) ∧
  self'.(__alias) = self.(__alias) ∧
  self'.(__source_index) = self.(__source_index) ∧
  self'.(__target_index) = self.(__target_index) ∧
  self'.(__source_type) = self.(__source_type) ∧
  self'.(__target_type) = self.(__target_type).
Proof.
  unfold create_mapping.
  destruct (__get_mappings json_loads self fs) as [mapping|e]; simpl; [|done].
  destruct (dict_get _ mapping) as [v|]; simpl; [|done].
  by destruct (is_not_None v).
Qed.

Lemma run_calls_fields {S} (json_loads : string → result json)
    (handle : handler S) (calls : list call) (self : Reindexer) (s : S) :
  let self' := (run_calls json_loads handle calls self s).1 in
  self'.(__host) = self.(__host) ∧
  self'.(__alias) = self.(__alias) ∧
  self'.(__source_index) = self.(__source_index) ∧
  self'.(__target_index) = self.(__target_index) ∧
  self'.(__source_type) = self.(__source_type) ∧
  self'.(__target_type) = self.(__target_type).
Proof.
  revert self s. induction calls as [|[fs|] calls IH]; intros self s; simpl.
  - done.
  - destruct (IH (create_mapping json_loads self fs).2 s)
      as (-> & -> & -> & -> & -> & ->).
    destruct (create_mapping_fields json_loads self fs)
      as (-> & _ & _ & -> & -> & -> & -> & ->).
    done.
  - apply IH.
Qed.

(** C10. After any sequence of [create_mapping] and [reindex] calls on an
    instance, against any cluster and any files, the six getters return
    the values given to the constructor. *)
Theorem getters_return_constructor_values {S}
    (json_loads : string → result json) (handle : handler S)
    (calls : list call) (s : S) (host : string) (port : Z)
    (mapping_file alias source_index target_index source_type target_type : string) :
  let self := (run_calls json_loads handle calls
                 (__init__ host port mapping_file alias source_index
                           target_index source_type target_type) s).1 in
  getHost self = host ∧ getSourceIndex self = source_index ∧
  getTargetIndex self = target_index ∧ getAlias self = alias ∧
  getSourceType self = source_type ∧ getTargetType self = target_type.
Proof.
  intros self. unfold getHost, getSourceIndex, getTargetIndex, getAlias,
    getSourceType, getTargetType.
  destruct (run_calls_fields json_loads handle calls
              (__init__ host port mapping_file alias source_index
                        target_index source_type target_type) s)
    as (H1 & H2 & H3 & H4 & H5 & H6).
  subst self. rewrite H1, H2, H3, H4, H5, H6. done.
Qed.

(** ** The requests of a run *)

Section Runs.

Context {S : Type}.
Variable handle : handler S.

Lemma reindex_body_unset (self : Reindexer) (s : S) :
  self.(__body) = None →
  reindex handle self s = (Raise (AttributeError "_Reindexer__body"), [], s).
Proof. intros Hb. unfold reindex, get_body. rewrite Hb. done. Qed.

(** [reindex] sends create, copy, delete and alias update in this
    order and stops at the first one that raises. *)
Lemma reindex_steps (self : Reindexer) (body : json) (s : S) :
  self.(__body) = Some body →
  reindex handle self s =
  let '(r1, s1) := handle (create_request self body) s in
  let e1 := Event (create_request self body) r1 s1 in
  match r1 with
  | Raise x => (Raise x, [e1], s1)
  | Ok _ =>
      let '(r2, s2) := handle (copy_request self) s1 in
      let e2 := Event (copy_request self) r2 s2 in
      match r2 with
      | Raise x => (Raise x, [e1; e2], s2)
      | Ok _ =>
          let '(r3, s3) := handle (delete_request self) s2 in
          let e3 := Event (delete_request self) r3 s3 in
          match r3 with
          | Raise x => (Raise x, [e1; e2; e3], s3)
          | Ok _ =>
              let '(r4, s4) := handle (alias_request self) s3 in
              (r4, [e1; e2; e3; Event (alias_request self) r4 s4], s4)
          end
      end
  end.
Proof.
  intros Hb.
  unfold reindex, get_body, create_request, copy_request, delete_request,
    alias_request, alias_body.
  rewrite Hb. unfold mbind, cluster_bind, lift, send. simpl.
  destruct (handle (IndicesCreate _ _) s) as [[[]|x1] s1]; [|done].
  destruct (handle (HelpersReindex _ _) s1) as [[[]|x2] s2]; [|done].
  destruct (handle (IndicesDelete _) s2) as [[[]|x3] s3]; [|done].
  by destruct (handle (IndicesUpdateAliases _) s3) as [[[]|x4] s4].
Qed.

End Runs.

Section Order.

Context {S : Type}.
Variable handle : handler S.

(** C1, as the code has it. In every run, an alias update is the fourth
    and last request: the create, the copy and the delete of the source
    index were issued before it, in this order, and each was confirmed;
    its body holds the single action that adds the alias to the target
    index. *)
Theorem alias_update_follows_confirmed_delete (self : Reindexer) (s : S)
    (i : nat) (ev : event S) (body : json) :
  trace (reindex handle self s) !! i = Some ev →
  ev_request ev = IndicesUpdateAliases body →
  ∃ b e1 e2 e3,
    trace (reindex handle self s) = [e1; e2; e3; ev] ∧
    ev_request e1 = create_request self b ∧ ev_outcome e1 = Ok () ∧
    ev_request e2 = copy_request self ∧ ev_outcome e2 = Ok () ∧
    ev_request e3 = delete_request self ∧ ev_outcome e3 = Ok () ∧
    body = alias_body self.
Proof.
  destruct (self.(__body)) as [b|] eqn:Hb.
  2: { rewrite (reindex_body_unset handle self s Hb). done. }
  rewrite (reindex_steps handle self b s Hb).
  destruct (handle (create_request self b) s) as [[[]|x1] s1].
  2: { destruct i as [|[|]]; simpl; intros [= <-]; done. }
  destruct (handle (copy_request self) s1) as [[[]|x2] s2].
  2: { destruct i as [|[|[|]]]; simpl; intros [= <-]; done. }
  destruct (handle (delete_request self) s2) as [[[]|x3] s3].
  2: { destruct i as [|[|[|[|]]]]; simpl; intros [= <-]; done. }
  destruct (handle (alias_request self) s3) as [r4 s4].
  destruct i as [|[|[|[|]]]]; simpl; intros [= <-]; try done.
  simpl. intros [= <-]. exists b. do 3 eexists. repeat split; done.
Qed.

(** C4. When the create of the target index raises, [reindex] raises
    the same exception and the failed create is the only request of the
    run: no copy, no delete and no alias update is sent, and the cluster
    is left as the failed create left it. *)
Theorem failed_create_stops_run (self : Reindexer) (body : json) (s s1 : S)
    (e : exn) :
  self.(__body) = Some body →
  handle (create_request self body) s = (Raise e, s1) →
  reindex handle self s
  = (Raise e, [Event (create_request self body) (Raise e) s1], s1).
Proof.
  intros Hb Hc. rewrite (reindex_steps handle self body s Hb), Hc. done.
Qed.

(** C6, as the code has it. When the delete of the source index raises,
    for an index that is not there as for any other reason, [reindex]
    raises the same exception and the alias update is not sent. *)
Theorem failed_delete_stops_run (self : Reindexer) (body : json)
    (s s1 s2 s3 : S) (e : exn) :
  self.(__body) = Some body →
  handle (create_request self body) s = (Ok (), s1) →
  handle (copy_request self) s1 = (Ok (), s2) →
  handle (delete_request self) s2 = (Raise e, s3) →
  reindex handle self s
  = (Raise e,
     [Event (create_request self body) (Ok ()) s1;
      Event (copy_request self) (Ok ()) s2;
      Event (delete_request self) (Raise e) s3], s3).
Proof.
  intros Hb H1 H2 H3.
  rewrite (reindex_steps handle self body s Hb), H1, H2, H3. done.
Qed.

End Order.

Example orders_ready_body : orders_ready.(__body) = Some orders_body.
Proof. vm_compute. reflexivity. Qed.

Lemma alias_update_follows_confirmed_delete_witness :
  trace run1 !! 3%nat = Some run1_alias ∧
  ev_request run1_alias = IndicesUpdateAliases (alias_body orders_ready) ∧
  ∃ b e1 e2 e3,
    trace run1 = [e1; e2; e3; run1_alias] ∧
    ev_request e1 = create_request orders_ready b ∧ ev_outcome e1 = Ok () ∧
    ev_request e2 = copy_request orders_ready ∧ ev_outcome e2 = Ok () ∧
    ev_request e3 = delete_request orders_ready ∧ ev_outcome e3 = Ok () ∧
    alias_body orders_ready = alias_body orders_ready.
Proof.
  split; [vm_compute; reflexivity|]. split; [reflexivity|].
  apply (alias_update_follows_confirmed_delete (es_handle lenient)
           orders_ready cluster1 3 run1_alias (alias_body orders_ready)).
  - vm_compute. reflexivity.
  - reflexivity.
Defined.

(** C1 fails on the reference cluster with the alias bound to the source
    index: the delete is the third request and the alias update the
    fourth, and in the state the delete leaves the alias resolves to no
    index. *)
Lemma delete_issued_before_alias_update :
  map ev_request (trace run1)
  = [create_request orders_ready orders_body; copy_request orders_ready;
     delete_request orders_ready; alias_request orders_ready] ∧
  resolve "orders" cluster1 = {[ "orders_v1" ]} ∧
  trace run1 !! 2%nat = Some run1_delete ∧
  resolve "orders" (ev_after run1_delete) = ∅ ∧
  ¬ alias_added_before_delete orders_ready (trace run1).
Proof.
  split; [vm_compute; reflexivity|]. split; [vm_compute; reflexivity|].
  assert (Hd : trace run1 !! 2%nat = Some run1_delete)
    by (vm_compute; reflexivity).
  split; [exact Hd|]. split; [vm_compute; reflexivity|].
  intros H. destruct (H 2%nat run1_delete Hd eq_refl) as (i & a & Hi & Ha & Hr & _).
  assert (Hreq : map ev_request (trace run1) !! i = Some (alias_request orders_ready)).
  { rewrite list_lookup_fmap, Ha. simpl. by rewrite Hr. }
  destruct i as [|[|i]]; [| |lia]; vm_compute in Hreq; discriminate.
Qed.

Lemma failed_create_stops_run_witness :
  orders_ready.(__body) = Some orders_body ∧
  es_handle lenient (create_request orders_ready orders_body) cluster2
  = (Raise (RequestError "resource_already_exists_exception"), cluster2) ∧
  reindex (es_handle lenient) orders_ready cluster2
  = (Raise (RequestError "resource_already_exists_exception"),
     [Event (create_request orders_ready orders_body)
        (Raise (RequestError "resource_already_exists_exception")) cluster2],
     cluster2).
Proof.
  split; [vm_compute; reflexivity|]. split; [vm_compute; reflexivity|].
  apply (failed_create_stops_run (es_handle lenient) orders_ready orders_body
           cluster2 cluster2).
  - vm_compute. reflexivity.
  - vm_compute. reflexivity.
Defined.

Lemma failed_delete_stops_run_witness :
  reindex scripted orders_ready vanished
  = (Raise (NotFoundError "index_not_found_exception"),
     [Event (create_request orders_ready orders_body) (Ok ())
        [Ok (); Raise (NotFoundError "index_not_found_exception")];
      Event (copy_request orders_ready) (Ok ())
        [Raise (NotFoundError "index_not_found_exception")];
      Event (delete_request orders_ready)
        (Raise (NotFoundError "index_not_found_exception")) []], []).
Proof.
  apply (failed_delete_stops_run scripted orders_ready orders_body vanished);
    vm_compute; reflexivity.
Defined.

(** C6 fails when the cluster answers the delete of the source index
    with not found, as the reference cluster does for an index that does
    not exist: the run ends with [NotFoundError] and the alias update is
    never sent. *)
Lemma delete_not_found_raises :
  es_handle lenient (IndicesDelete "orders_v1") ∅
  = (Raise (NotFoundError "index_not_found_exception"), ∅) ∧
  outcome (reindex scripted orders_ready vanished)
  = Raise (NotFoundError "index_not_found_exception") ∧
  is_ok (outcome (reindex scripted orders_ready vanished)) = false ∧
  map ev_request (trace (reindex scripted orders_ready vanished))
  = [create_request orders_ready orders_body; copy_request orders_ready;
     delete_request orders_ready].
Proof. repeat split; vm_compute; reflexivity. Qed.

(** ** Runs on the reference cluster *)

Lemma elem_of_resolve (alias i : string) (c : es_state) :
  i ∈ resolve alias c ↔ ∃ ix, c !! i = Some ix ∧ alias ∈ ix.(ix_aliases).
Proof.
  unfold resolve. rewrite elem_of_dom. split.
  - intros [ix [Hix Ha]%map_lookup_filter_Some]. by exists ix.
  - intros (ix & Hix & Ha). exists ix. by apply map_lookup_filter_Some.
Qed.

Lemma decode_alias_body (self : Reindexer) :
  decode_actions (alias_body self)
  = Some [AddAlias self.(__target_index) self.(__alias)].
Proof. reflexivity. Qed.

Section ReferenceRuns.

Variable validate : string → json → result unit.

(** A request the reference cluster refuses changes nothing. *)
Lemma es_refusal_changes_nothing (rq : request) (c c' : es_state) (e : exn) :
  es_handle validate rq c = (Raise e, c') → c' = c.
Proof.
  destruct rq as [name body|source target|name|body]; simpl;
    repeat case_match; congruence.
Qed.

(** C3, as the code has it. When an index with the name of the target
    exists, with the same body or another, the create is refused:
    [reindex] raises the request error of the cluster, sends nothing
    else and the cluster is unchanged. *)
Theorem create_existing_target_raises (self : Reindexer) (body : json)
    (c : es_state) (ix : es_index) :
  self.(__body) = Some body →
  c !! self.(__target_index) = Some ix →
  reindex (es_handle validate) self c
  = (Raise (RequestError "resource_already_exists_exception"),
     [Event (create_request self body)
        (Raise (RequestError "resource_already_exists_exception")) c], c).
Proof.
  intros Hb Hix. rewrite (reindex_steps _ self body c Hb).
  unfold create_request. cbn [es_handle]. by rewrite Hix.
Qed.

(** What a successful run did to the cluster. *)
Lemma successful_run (self : Reindexer) (c : es_state) :
  outcome (reindex (es_handle validate) self c) = Ok () →
  ∃ body src,
    let s := self.(__source_index) in
    let t := self.(__target_index) in
    let new := EsIndex body ∅ (body_aliases body) in
    let copied := put_docs src.(ix_docs) new in
    self.(__body) = Some body ∧
    c !! t = None ∧ c !! s = Some src ∧ s ≠ t ∧
    final (reindex (es_handle validate) self c)
    = <[t := bind_alias self.(__alias) copied]>
        (delete s (<[t := copied]> (<[t := new]> c))).
Proof.
  destruct (self.(__body)) as [body|] eqn:Hb.
  2: { by rewrite (reindex_body_unset _ self c Hb). }
  rewrite (reindex_steps _ self body c Hb).
  unfold create_request, copy_request, delete_request, alias_request.
  cbn [es_handle]. rewrite decode_alias_body.
  set (s := self.(__source_index)). set (t := self.(__target_index)).
  destruct (c !! t) as [?|] eqn:Ht; [done|].
  case_bool_decide; [|done].
  destruct (validate t body) as [[]|?]; [|done].
  rewrite lookup_insert_eq.
  destruct (decide (s = t)) as [Hst|Hst].
  - rewrite Hst, lookup_insert_eq, lookup_insert_eq.
    cbn [apply_actions apply_action mbind result_bind].
    rewrite lookup_delete_eq. done.
  - rewrite lookup_insert_ne by done.
    destruct (c !! s) as [src|] eqn:Hs; [|done].
    rewrite lookup_insert_ne by done. rewrite lookup_insert_ne by done.
    rewrite Hs. cbn [apply_actions apply_action mbind result_bind].
    rewrite lookup_delete_ne by done. rewrite lookup_insert_eq.
    destruct (delete s _ !! self.(__alias)); [done|].
    intros _. exists body, src. done.
Qed.

(** C2, as the code has it. [reindex] keeps no record of what it has
    done: after a run that succeeded, a second run with the same
    instance sends the create of the target index again, the cluster
    refuses it because the index now exists, and the run stops there
    with that error; nothing else is sent and the cluster is unchanged. *)
Theorem rerun_stops_at_create (self : Reindexer) (c : es_state) :
  outcome (reindex (es_handle validate) self c) = Ok () →
  ∃ body,
    self.(__body) = Some body ∧
    let c' := final (reindex (es_handle validate) self c) in
    reindex (es_handle validate) self c'
    = (Raise (RequestError "resource_already_exists_exception"),
       [Event (create_request self body)
          (Raise (RequestError "resource_already_exists_exception")) c'],
       c').
Proof.
  intros Hok. destruct (successful_run self c Hok)
    as (body & src & Hb & _ & _ & _ & Hfin).
  exists body. split; [done|]. simpl. rewrite Hfin.
  rewrite (reindex_steps _ self body _ Hb).
  unfold create_request. cbn [es_handle]. by rewrite lookup_insert_eq.
Qed.

(** C7, as the code has it. After a successful run the alias resolves
    to the target index and to every index it resolved to before the
    run, except the source index, which no longer exists. *)
Theorem alias_after_successful_run (self : Reindexer) (c : es_state) :
  outcome (reindex (es_handle validate) self c) = Ok () →
  let c' := final (reindex (es_handle validate) self c) in
  resolve self.(__alias) c'
  = {[ self.(__target_index) ]}
    ∪ (resolve self.(__alias) c ∖ {[ self.(__source_index) ]})
  ∧ c' !! self.(__source_index) = None.
Proof.
  intros Hok. destruct (successful_run self c Hok)
    as (body & src & Hb & Ht & Hs & Hst & Hfin).
  simpl in *. rewrite Hfin. split.
  - apply set_eq. intros i.
    rewrite elem_of_union, elem_of_difference, elem_of_singleton,
      elem_of_singleton, !elem_of_resolve.
    destruct (decide (i = self.(__target_index))) as [->|Hit].
    + rewrite lookup_insert_eq. split; [by left|].
      intros _. eexists. split; [done|]. simpl. set_solver.
    + rewrite lookup_insert_ne by done.
      destruct (decide (i = self.(__source_index))) as [->|His].
      * rewrite lookup_delete_eq. split; [by intros (? & ? & _)|].
        intros [?|[_ ?]]; done.
      * rewrite lookup_delete_ne by done.
        rewrite !lookup_insert_ne by done. split; [by right|].
        intros [?|[? _]]; done.
  - rewrite lookup_insert_ne by done. apply lookup_delete_eq.
Qed.

End ReferenceRuns.

Lemma create_existing_target_raises_witness :
  orders_ready.(__body) = Some orders_body ∧
  cluster2 !! orders_ready.(__target_index) = Some (EsIndex orders_body ∅ ∅) ∧
  reindex (es_handle lenient) orders_ready cluster2
  = (Raise (RequestError "resource_already_exists_exception"),
     [Event (create_request orders_ready orders_body)
        (Raise (RequestError "resource_already_exists_exception")) cluster2],
     cluster2).
Proof.
  split; [vm_compute; reflexivity|]. split; [vm_compute; reflexivity|].
  apply (create_existing_target_raises lenient orders_ready orders_body
           cluster2 (EsIndex orders_body ∅ ∅)); vm_compute; reflexivity.
Defined.

(** C3 fails on the reference cluster: the target index exists with the
    very body the instance holds, and the run ends with the error of the
    refused create. *)
Lemma create_identical_mapping_refused :
  orders_ready.(__body) = Some orders_body ∧
  ix_body <$> cluster2 !! orders_ready.(__target_index) = Some orders_body ∧
  outcome (reindex (es_handle lenient) orders_ready cluster2)
  = Raise (RequestError "resource_already_exists_exception") ∧
  is_ok (outcome (reindex (es_handle lenient) orders_ready cluster2)) = false.
Proof. repeat split; vm_compute; reflexivity. Qed.

Lemma rerun_stops_at_create_witness :
  outcome run1 = Ok () ∧
  ∃ body,
    orders_ready.(__body) = Some body ∧
    let c' := final run1 in
    reindex (es_handle lenient) orders_ready c'
    = (Raise (RequestError "resource_already_exists_exception"),
       [Event (create_request orders_ready body)
          (Raise (RequestError "resource_already_exists_exception")) c'],
       c').
Proof.
  split; [vm_compute; reflexivity|].
  apply (rerun_stops_at_create lenient orders_ready cluster1).
  vm_compute. reflexivity.
Defined.

(** C2 fails on the reference cluster: the first run succeeds, the second
    run with the same instance sends the create again and ends with the
    error of the refused create. *)
Lemma rerun_raises :
  outcome run1 = Ok () ∧
  outcome (reindex (es_handle lenient) orders_ready (final run1))
  = Raise (RequestError "resource_already_exists_exception") ∧
  map ev_request (trace (reindex (es_handle lenient) orders_ready (final run1)))
  = [create_request orders_ready orders_body].
Proof. repeat split; vm_compute; reflexivity. Qed.

Lemma alias_after_successful_run_witness :
  outcome (reindex (es_handle lenient) orders_ready cluster0) = Ok () ∧
  let c' := final (reindex (es_handle lenient) orders_ready cluster0) in
  resolve orders_ready.(__alias) c'
  = {[ orders_ready.(__target_index) ]}
    ∪ (resolve orders_ready.(__alias) cluster0
       ∖ {[ orders_ready.(__source_index) ]})
  ∧ c' !! orders_ready.(__source_index) = None.
Proof.
  split; [vm_compute; reflexivity|].
  apply (alias_after_successful_run lenient orders_ready cluster0).
  vm_compute. reflexivity.
Defined.

(** C7 fails on the reference cluster when the alias is also bound to an
    index that is neither source nor target: the run succeeds and the
    alias resolves to that index and to the target. *)
Lemma alias_keeps_other_index :
  resolve "orders" cluster0 = {[ "orders_v0"; "orders_v1" ]} ∧
  outcome (reindex (es_handle lenient) orders_ready cluster0) = Ok () ∧
  resolve "orders" (final (reindex (es_handle lenient) orders_ready cluster0))
  = {[ "orders_v0"; "orders_v2" ]} ∧
  resolve "orders" (final (reindex (es_handle lenient) orders_ready cluster0))
  ≠ {[ "orders_v2" ]}.
Proof.
  split; [vm_compute; reflexivity|]. split; [vm_compute; reflexivity|].
  assert (H : resolve "orders"
                (final (reindex (es_handle lenient) orders_ready cluster0))
              = {[ "orders_v0"; "orders_v2" ]}) by (vm_compute; reflexivity).
  split; [exact H|]. rewrite H. intros Heq.
  assert (Hin : "orders_v0" ∈ ({[ "orders_v2" ]} : gset string))
    by (rewrite <- Heq; set_solver).
  set_solver.
Qed.

(** * Further properties of the code *)

(** ** [mapping[key] = value] and [mapping[key]] *)

Lemma dict_get_set_eq (k : string) (v : json) (d : dict) :
  dict_get k (dict_set k v d) = Some v.
Proof.
  induction d as [|[k' v'] d IH]; simpl.
  - by rewrite String.eqb_refl.
  - destruct (String.eqb k k') eqn:Hk; simpl.
    + by rewrite String.eqb_refl.
    + by rewrite Hk.
Qed.

Lemma dict_get_set_ne (k k' : string) (v : json) (d : dict) :
  k ≠ k' → dict_get k' (dict_set k v d) = dict_get k' d.
Proof.
  intros Hne. induction d as [|[k0 v0] d IH]; simpl.
  - destruct (String.eqb k' k) eqn:Hk; [|done].
    apply String.eqb_eq in Hk. congruence.
  - destruct (String.eqb k k0) eqn:Hk; simpl.
    + apply String.eqb_eq in Hk. subst k0.
      destruct (String.eqb k' k) eqn:Hk'; [|done].
      apply String.eqb_eq in Hk'. congruence.
    + by rewrite IH.
Qed.

Lemma dict_set_keys (k : string) (v : json) (d : dict) :
  (dict_set k v d).*1
  = if bool_decide (k ∈ d.*1) then d.*1 else d.*1 ++ [k].
Proof.
  induction d as [|[k0 v0] d IH].
  - case_bool_decide as Hin; [|done]. by apply elem_of_nil in Hin.
  - cbn [dict_set]. destruct (String.eqb k k0) eqn:Hk.
    + apply String.eqb_eq in Hk. subst k0.
      rewrite bool_decide_eq_true_2; [done|].
      rewrite fmap_cons. apply elem_of_cons. by left.
    + apply String.eqb_neq in Hk. rewrite !fmap_cons, IH. cbn [fst].
      case_bool_decide as Hin.
      * rewrite bool_decide_eq_true_2; [done|]. apply elem_of_cons. by right.
      * rewrite bool_decide_eq_false_2; [done|].
        intros [?|?]%elem_of_cons; done.
Qed.

(** X1. Assigning to a key of a dict and reading the dict back: the key
    reads as the value assigned, every other key reads as before, and the
    order of the keys is kept, a new key going last. *)
Theorem dict_assignment (k : string) (v : json) (d : dict) :
  dict_get k (dict_set k v d) = Some v
  ∧ (∀ k', k ≠ k' → dict_get k' (dict_set k v d) = dict_get k' d)
  ∧ (dict_set k v d).*1
    = if bool_decide (k ∈ d.*1) then d.*1 else d.*1 ++ [k].
Proof.
  split; [apply dict_get_set_eq|]. split; [|apply dict_set_keys].
  intros k' Hne. by apply dict_get_set_ne.
Qed.

(** ** [readlines] *)

Lemma readlines_concat (text : string) :
  foldr String.append EmptyString (readlines text) = text.
Proof.
  induction text as [|c text IH]; simpl; [done|].
  destruct (Ascii.eqb c newline); simpl; [by rewrite IH|].
  destruct (readlines text) as [|line lines]; simpl in *; by rewrite <- IH.
Qed.

Lemma readlines_non_empty (text : string) :
  Forall (λ line, line ≠ EmptyString) (readlines text).
Proof.
  induction text as [|c text IH]; simpl; [constructor|].
  destruct (Ascii.eqb c newline); [by constructor|].
  destruct (readlines text) as [|line lines]; [by repeat constructor|].
  inversion IH; subst. by constructor.
Qed.

Lemma readlines_lines (text : string) (i : nat) (line : string) :
  readlines text !! i = Some line →
  terminated line = true
  ∨ (S i = length (readlines text) ∧ has_newline line = false).
Proof.
  revert i line. induction text as [|c text IH]; intros i line; simpl; [done|].
  destruct (Ascii.eqb c newline) eqn:Hc.
  - destruct i as [|i]; simpl.
    + intros [= <-]. left. simpl. by rewrite Hc.
    + intros [Ht|[Hl Hn]]%IH; [by left|]. right. by rewrite Hl.
  - destruct (readlines text) as [|l ls] eqn:Hr.
    + destruct i as [|i]; simpl; [|done]. intros [= <-]. right.
      simpl. by rewrite Hc.
    + destruct i as [|i]; simpl.
      * intros [= <-]. destruct (IH 0%nat l eq_refl) as [Ht|[Hl Hn]].
        -- left. simpl. by rewrite Hc.
        -- right. split; [done|]. simpl. by rewrite Hc.
      * intros Hi. apply (IH (S i)) in Hi. done.
Qed.

(** X2. The lines that the loop of [__get_mappings] goes through are the
    lines of the text of the file: joined in order they give the text
    back, none of them is the empty string, and each of them ends with its
    only line feed, except that the last one may have none. *)
Theorem readlines_cut_the_text (text : string) :
  foldr String.append EmptyString (readlines text) = text
  ∧ Forall (λ line, line ≠ EmptyString) (readlines text)
  ∧ ∀ (i : nat) (line : string), readlines text !! i = Some line →
      terminated line = true
      ∨ (S i = length (readlines text) ∧ has_newline line = false).
Proof.
  split; [apply readlines_concat|]. split; [apply readlines_non_empty|].
  apply readlines_lines.
Qed.

(** ** [str.strip] *)

Lemma lstrip_split (s : string) :
  ∃ pre, s = pre +:+ lstrip s ∧ blank pre = true.
Proof.
  induction s as [|c s (pre & IH & Hpre)]; simpl.
  - by exists EmptyString.
  - destruct (isspace c) eqn:Hc.
    + exists (String c pre). split; [|simpl; by rewrite Hc].
      change (String c s = String c (pre +:+ lstrip s)). by rewrite <- IH.
    + by exists EmptyString.
Qed.

Lemma rstrip_split (s : string) :
  ∃ post, s = rstrip s +:+ post ∧ blank post = true.
Proof.
  induction s as [|c s (post & IH & Hpost)]; simpl.
  - by exists EmptyString.
  - destruct (rstrip s) as [|c' t] eqn:Hr.
    + change (s = post) in IH. subst post. destruct (isspace c) eqn:Hc.
      * exists (String c s). split; [done|]. simpl. by rewrite Hc.
      * by exists s.
    + exists post. split; [|done].
      change (String c s = String c (String c' t +:+ post)). by rewrite <- IH.
Qed.

Lemma lstrip_starts (s : string) : starts_with_space (lstrip s) = false.
Proof.
  induction s as [|c s IH]; simpl; [done|].
  destruct (isspace c) eqn:Hc; [done|]. simpl. by rewrite Hc.
Qed.

Lemma rstrip_starts (s : string) :
  starts_with_space s = false → starts_with_space (rstrip s) = false.
Proof.
  destruct s as [|c s]; simpl; [done|]. intros Hc.
  destruct (rstrip s); simpl; [by rewrite Hc|done].
Qed.

Lemma rstrip_ends (s : string) : ends_with_space (rstrip s) = false.
Proof.
  induction s as [|c s IH]; simpl; [done|].
  destruct (rstrip s) as [|c' t] eqn:Hr.
  - destruct (isspace c) eqn:Hc; simpl; [done|by rewrite Hc].
  - done.
Qed.

(** X21. [strip] takes white space off both ends and nothing else: the
    line is the stripped line between two runs of white space, and the
    stripped line neither starts nor ends with white space. Its length is
    zero exactly when the line holds white space only. *)
Theorem strip_both_ends (line : string) :
  (∃ pre post,
     line = pre +:+ strip line +:+ post ∧
     blank pre = true ∧ blank post = true)
  ∧ starts_with_space (strip line) = false
  ∧ ends_with_space (strip line) = false
  ∧ (len (strip line) = 0%nat ↔ blank line = true).
Proof.
  unfold strip. split; [|split; [|split]].
  - destruct (lstrip_split line) as (pre & Hl & Hpre).
    destruct (rstrip_split (lstrip line)) as (post & Hr & Hpost).
    exists pre, post. split; [|done]. by rewrite <- Hr.
  - apply rstrip_starts, lstrip_starts.
  - apply rstrip_ends.
  - rewrite <- (blank_lstrip line), <- rstrip_empty. unfold len.
    destruct (rstrip (lstrip line)); simpl; split; done.
Qed.

(** ** [__get_mappings] and [create_mapping] *)

Lemma first_non_blank_none (lines : list string) :
  Forall (λ line, blank line = true) lines → first_non_blank lines = None.
Proof.
  induction 1 as [|line lines Hb _ IH]; simpl; [done|]. by rewrite Hb.
Qed.

Lemma same_fields_set_body (a b : Reindexer) (v : json) :
  same_fields a b → set_body a v = set_body b v.
Proof.
  destruct a, b. unfold same_fields, set_body. simpl.
  intros (-> & -> & -> & -> & -> & -> & -> & ->). done.
Qed.

Lemma same_fields_after_set_body (self : Reindexer) (v : json) :
  same_fields (set_body self v) self.
Proof. repeat split. Qed.

Section MoreMappingFacts.

Variable json_loads : string → result json.

Lemma get_mappings_shape (self : Reindexer) (fs : filesystem) (mapping : dict) :
  __get_mappings json_loads self fs = Ok mapping →
  mapping = [(self.(__target_type), JObj [])]
  ∨ ∃ fields,
      mapping = dict_set self.(__source_type) fields
                  [(self.(__target_type), JObj [])].
Proof.
  unfold __get_mappings, open.
  destruct (fs !! self.(__mapping_file)) as [text|]; simpl; [|done].
  rewrite get_mappings_loop_find.
  destruct (first_non_blank (readlines text)) as [line|]; simpl.
  - destruct (json_loads line) as [fields|e]; simpl; [|done].
    intros [= <-]. right. by exists fields.
  - intros [= <-]. by left.
Qed.

Lemma get_mappings_target_bound (self : Reindexer) (fs : filesystem)
    (mapping : dict) :
  __get_mappings json_loads self fs = Ok mapping →
  is_Some (dict_get self.(__target_type) mapping).
Proof.
  intros [->|[fields ->]]%get_mappings_shape; simpl.
  - rewrite String.eqb_refl. by eexists.
  - destruct (String.eqb _ _) eqn:Hk; simpl.
    + rewrite String.eqb_sym, Hk. by eexists.
    + rewrite String.eqb_refl. by eexists.
Qed.

Lemma same_fields_get_mappings (a b : Reindexer) (fs : filesystem) :
  same_fields a b →
  __get_mappings json_loads a fs = __get_mappings json_loads b fs.
Proof.
  intros (_ & _ & Hf & _ & _ & _ & Hs & Ht). unfold __get_mappings.
  rewrite Hf, Ht. destruct (open fs _) as [text|e]; simpl; [|done].
  rewrite <- Ht at 1. rewrite !get_mappings_loop_find.
  unfold mapping_of_first_line. by rewrite Hs, Ht.
Qed.

(** The outcome of [create_mapping] and the body it assigns, read off
    the result of [__get_mappings]. *)
Lemma create_mapping_cases (self : Reindexer) (fs : filesystem) :
  match __get_mappings json_loads self fs with
  | Raise e => create_mapping json_loads self fs = (Raise e, self)
  | Ok mapping =>
      ∃ body, create_mapping json_loads self fs = (Ok (), set_body self body)
  end.
Proof.
  unfold create_mapping.
  destruct (__get_mappings json_loads self fs) as [mapping|e] eqn:Hm; [|done].
  destruct (get_mappings_target_bound self fs mapping Hm) as [v Hv].
  simpl. rewrite Hv. destruct (is_not_None v); by eexists.
Qed.

(** X3. The mapping that [__get_mappings] returns always binds
    [target_type]; it has this key alone, or this key followed by
    [source_type], and no other key. *)
Theorem mapping_keys (self : Reindexer) (fs : filesystem) (mapping : dict) :
  __get_mappings json_loads self fs = Ok mapping →
  is_Some (dict_get self.(__target_type) mapping)
  ∧ (mapping.*1 = [self.(__target_type)]
     ∨ mapping.*1 = [self.(__target_type); self.(__source_type)]).
Proof.
  intros Hm. split; [by eapply get_mappings_target_bound|].
  apply get_mappings_shape in Hm as [->|[fields ->]]; [by left|].
  rewrite dict_set_keys. simpl. case_bool_decide; [by left|by right].
Qed.

(** X4. [create_mapping] raises exactly when [__get_mappings] does, and
    with the same exception: the lookup of [target_type] in the mapping
    never fails. *)
Theorem create_mapping_outcome (self : Reindexer) (fs : filesystem) :
  (create_mapping json_loads self fs).1
  = match __get_mappings json_loads self fs with
    | Ok _ => Ok ()
    | Raise e => Raise e
    end.
Proof.
  pose proof (create_mapping_cases self fs) as H.
  destruct (__get_mappings json_loads self fs) as [mapping|e].
  - destruct H as [body ->]. done.
  - by rewrite H.
Qed.

(** X5. A [create_mapping] that raises assigns nothing: the instance is
    as it was, and [getMapping] returns, or raises, what it did before
    the call. *)
Theorem failed_create_mapping_keeps_instance (self : Reindexer)
    (fs : filesystem) (e : exn) :
  (create_mapping json_loads self fs).1 = Raise e →
  (create_mapping json_loads self fs).2 = self
  ∧ getMapping (create_mapping json_loads self fs).2 = getMapping self.
Proof.
  pose proof (create_mapping_cases self fs) as H.
  destruct (__get_mappings json_loads self fs) as [mapping|e'].
  - destruct H as [body ->]. done.
  - rewrite H. done.
Qed.

(** X6. When the mapping file cannot be opened, [create_mapping] raises
    the error of [open] whatever the loader, and assigns nothing. *)
Theorem create_mapping_missing_file (self : Reindexer) (fs : filesystem) :
  fs !! self.(__mapping_file) = None →
  create_mapping json_loads self fs
  = (Raise (FileNotFoundError self.(__mapping_file)), self).
Proof.
  intros Hf. unfold create_mapping, __get_mappings, open. by rewrite Hf.
Qed.

(** X7. On a file that is empty or holds blank lines only, the loader is
    not called: [create_mapping] returns normally, whatever the loader
    would do, and the body binds [target_type] to the empty dict. *)
Theorem create_mapping_blank_file (self : Reindexer) (fs : filesystem)
    (text : string) :
  fs !! self.(__mapping_file) = Some text →
  Forall (λ line, blank line = true) (readlines text) →
  create_mapping json_loads self fs
  = (Ok (), set_body self
              (JObj [("mappings", JObj [(self.(__target_type), JObj [])])])).
Proof.
  intros Hf Hb. unfold create_mapping.
  rewrite (get_mappings_read _ _ _ _ Hf), (first_non_blank_none _ Hb).
  simpl. by rewrite String.eqb_refl.
Qed.

Lemma create_mapping_respects_fields (a b : Reindexer) (fs : filesystem) :
  same_fields a b →
  (create_mapping json_loads a fs).1 = (create_mapping json_loads b fs).1
  ∧ ((create_mapping json_loads a fs).1 = Ok () →
     (create_mapping json_loads a fs).2 = (create_mapping json_loads b fs).2).
Proof.
  intros Hab. unfold create_mapping.
  rewrite (same_fields_get_mappings a b fs Hab).
  destruct (__get_mappings json_loads b fs) as [mapping|e]; simpl; [|done].
  destruct Hab as (H1 & H2 & H3 & H4 & H5 & H6 & H7 & H8).
  rewrite H8. destruct (dict_get _ mapping) as [v|]; simpl; [|done].
  assert (Hs : ∀ w, set_body a w = set_body b w).
  { intros w. apply same_fields_set_body. repeat split; done. }
  destruct (is_not_None v); by rewrite ?Hs.
Qed.

(** X8. [create_mapping] does not read the body: on two instances with
    the same constructor fields it has the same outcome, and when it
    returns normally it leaves the same instance, whatever body either
    one held. *)
Theorem create_mapping_ignores_body (a b : Reindexer) (fs : filesystem) :
  same_fields a b →
  (create_mapping json_loads a fs).1 = (create_mapping json_loads b fs).1
  ∧ ((create_mapping json_loads a fs).1 = Ok () →
     (create_mapping json_loads a fs).2 = (create_mapping json_loads b fs).2).
Proof. apply create_mapping_respects_fields. Qed.

(** X9. Calling [create_mapping] twice on the same files is the same as
    calling it once. *)
Theorem create_mapping_twice (self : Reindexer) (fs : filesystem) :
  create_mapping json_loads (create_mapping json_loads self fs).2 fs
  = create_mapping json_loads self fs.
Proof.
  pose proof (create_mapping_cases self fs) as H.
  destruct (__get_mappings json_loads self fs) as [mapping|e] eqn:Hm.
  - destruct H as [body Hc]. rewrite Hc. simpl.
    unfold create_mapping in *.
    rewrite (same_fields_get_mappings _ self fs
               (same_fields_after_set_body self body)), Hm in *.
    simpl in *. destruct (dict_get _ mapping) as [v|]; [|done].
    destruct (is_not_None v); done.
  - rewrite H. simpl. exact H.
Qed.

End MoreMappingFacts.

(** ** The requests of [reindex], for any cluster *)

Section MoreRuns.

Context {S : Type}.
Variable handle : handler S.

Lemma run_calls_same_fields (json_loads : string → result json)
    (calls : list call) (self : Reindexer) (s : S) :
  same_fields (run_calls json_loads handle calls self s).1 self.
Proof.
  revert self s. induction calls as [|[fs|] calls IH]; intros self s; simpl.
  - repeat split.
  - pose proof (create_mapping_cases json_loads self fs) as H.
    destruct (__get_mappings json_loads self fs) as [mapping|e].
    + destruct H as [body ->]. simpl.
      pose proof (IH (set_body self body) s) as HI.
      unfold same_fields in *. simpl in HI. exact HI.
    + rewrite H. apply IH.
  - apply IH.
Qed.

(** X10. After any sequence of calls on an instance, a [create_mapping]
    that returns normally leaves the instance that it would leave on the
    instance fresh from the constructor: the body depends on the
    constructor arguments and on the file alone. *)
Theorem create_mapping_after_calls (json_loads : string → result json)
    (calls : list call) (self : Reindexer) (s : S) (fs : filesystem) :
  let self' := (run_calls json_loads handle calls self s).1 in
  (create_mapping json_loads self' fs).1 = (create_mapping json_loads self fs).1
  ∧ ((create_mapping json_loads self' fs).1 = Ok () →
     (create_mapping json_loads self' fs).2 = (create_mapping json_loads self fs).2).
Proof.
  apply create_mapping_respects_fields, run_calls_same_fields.
Qed.

(** X11. The requests of a run are an initial part of create, copy,
    delete, alias update: [reindex] sends at most these four, in this
    order, naming only the target index, the source index and the alias
    of the instance; with the body unset it sends nothing. *)
Theorem reindex_requests_prefix (self : Reindexer) (s : S) :
  match self.(__body) with
  | None => trace (reindex handle self s) = []
  | Some body =>
      map ev_request (trace (reindex handle self s))
      `prefix_of` four_requests self body
  end.
Proof.
  destruct (self.(__body)) as [body|] eqn:Hb.
  2: { by rewrite (reindex_body_unset handle self s Hb). }
  rewrite (reindex_steps handle self body s Hb). unfold four_requests.
  destruct (handle (create_request self body) s) as [[[]|x1] s1].
  2: { by eexists [_; _; _]. }
  destruct (handle (copy_request self) s1) as [[[]|x2] s2].
  2: { by eexists [_; _]. }
  destruct (handle (delete_request self) s2) as [[[]|x3] s3].
  2: { by eexists [_]. }
  destruct (handle (alias_request self) s3) as [r4 s4]. by exists [].
Qed.

(** X12. [reindex] returns normally exactly when the body is set and
    the cluster answers all four requests normally. *)
Theorem reindex_succeeds_iff (self : Reindexer) (s : S) :
  outcome (reindex handle self s) = Ok () ↔
  ∃ body,
    self.(__body) = Some body ∧
    answers (trace (reindex handle self s))
    = map (λ rq, (rq, Ok ())) (four_requests self body).
Proof.
  destruct (self.(__body)) as [body|] eqn:Hb.
  2: { rewrite (reindex_body_unset handle self s Hb).
       split; [done|]. by intros (? & ? & _). }
  rewrite (reindex_steps handle self body s Hb). unfold four_requests.
  destruct (handle (create_request self body) s) as [[[]|x1] s1].
  2: { split; [done|]. by intros (? & _ & ?). }
  destruct (handle (copy_request self) s1) as [[[]|x2] s2].
  2: { split; [done|]. by intros (? & _ & ?). }
  destruct (handle (delete_request self) s2) as [[[]|x3] s3].
  2: { split; [done|]. by intros (? & _ & ?). }
  destruct (handle (alias_request self) s3) as [[[]|x4] s4].
  - split; [|done]. intros _. by exists body.
  - split; [done|]. by intros (? & _ & ?).
Qed.

(** X13. In every run each request but the last was answered normally,
    the outcome of the run is the answer to the last request, and the
    cluster is left in the state this request left. *)
Theorem reindex_stops_at_first_error (self : Reindexer) (s : S) :
  (∀ (i : nat) (ev : event S),
     trace (reindex handle self s) !! i = Some ev →
     (i + 1 < length (trace (reindex handle self s)))%nat →
     ev_outcome ev = Ok ())
  ∧ (∀ ev : event S,
       last (trace (reindex handle self s)) = Some ev →
       outcome (reindex handle self s) = ev_outcome ev
       ∧ final (reindex handle self s) = ev_after ev).
Proof.
  destruct (self.(__body)) as [body|] eqn:Hb.
  2: { by rewrite (reindex_body_unset handle self s Hb). }
  rewrite (reindex_steps handle self body s Hb).
  destruct (handle (create_request self body) s) as [[[]|x1] s1].
  2: { split; [|by intros ev [= <-]].
       intros [|i] ev; simpl; intros; [lia|done]. }
  destruct (handle (copy_request self) s1) as [[[]|x2] s2].
  2: { split; [|by intros ev [= <-]].
       intros [|[|i]] ev; simpl; intros [= <-] ?; first [done|lia]. }
  destruct (handle (delete_request self) s2) as [[[]|x3] s3].
  2: { split; [|by intros ev [= <-]].
       intros [|[|[|i]]] ev; simpl; intros [= <-] ?; first [done|lia]. }
  destruct (handle (alias_request self) s3) as [r4 s4].
  split; [|by intros ev [= <-]].
  intros [|[|[|[|i]]]] ev; simpl; intros [= <-] ?; first [done|lia].
Qed.

(** X14. After a [create_mapping] that returned normally, [getMapping]
    returns the body, and when the clients are built [reindex] sends it:
    the first request of the run is the create of the target index with
    this body, also when the body is [None]. When the construction of
    the clients raises, [reindex] raises the same error and sends
    nothing. *)
Theorem reindex_sends_mapping (json_loads : string → result json)
    (new_clients : string → Z → result unit)
    (self : Reindexer) (fs : filesystem) (s : S) :
  (create_mapping json_loads self fs).1 = Ok () →
  let self' := (create_mapping json_loads self fs).2 in
  match new_clients self.(__host) self.(__port) with
  | Ok _ =>
      ∃ body ev rest,
        getMapping self' = Ok body ∧
        trace (reindex_method new_clients handle self' s) = ev :: rest ∧
        ev_request ev = IndicesCreate self.(__target_index) body
  | Raise e =>
      reindex_method new_clients handle self' s = (Raise e, [], s)
  end.
Proof.
  pose proof (create_mapping_cases json_loads self fs) as H.
  destruct (__get_mappings json_loads self fs) as [mapping|e].
  2: { by rewrite H. }
  destruct H as [body ->]. intros _. simpl.
  unfold reindex_method, mbind, cluster_bind, lift. simpl.
  destruct (new_clients self.(__host) self.(__port)) as [[]|e]; [|done].
  exists body.
  rewrite (reindex_steps handle (set_body self body) body s eq_refl).
  destruct (handle _ s) as [[[]|x1] s1]; [|by do 2 eexists].
  destruct (handle _ s1) as [[[]|x2] s2]; [|by do 2 eexists].
  destruct (handle _ s2) as [[[]|x3] s3]; [|by do 2 eexists].
  destruct (handle _ s3) as [r4 s4]. by do 2 eexists.
Qed.

End MoreRuns.

(** ** Runs on the reference cluster: success, failure and what is left *)

Section MoreReferenceRuns.

Variable validate : string → json → result unit.

(** X16. After a successful run on the reference cluster the target
    index holds the body of the instance, exactly the documents of the
    source index, and the alias besides the aliases the body asked for;
    every index other than source and target is as it was. *)
Theorem successful_run_state (self : Reindexer) (c : es_state) :
  outcome (reindex (es_handle validate) self c) = Ok () →
  let c' := final (reindex (es_handle validate) self c) in
  ∃ body src,
    self.(__body) = Some body ∧
    c !! self.(__source_index) = Some src ∧
    c' !! self.(__target_index)
    = Some (EsIndex body src.(ix_docs)
              ({[ self.(__alias) ]} ∪ body_aliases body)) ∧
    ∀ i, i ≠ self.(__source_index) → i ≠ self.(__target_index) →
         c' !! i = c !! i.
Proof.
  intros Hok. destruct (successful_run validate self c Hok)
    as (body & src & Hb & Ht & Hs & Hst & Hfin).
  simpl in *. exists body, src. rewrite Hfin.
  split; [done|]. split; [done|]. split.
  - rewrite lookup_insert_eq. unfold bind_alias, put_docs. simpl.
    by rewrite (right_id_L ∅ (∪)).
  - intros i His Hit. rewrite lookup_insert_ne by done.
    rewrite lookup_delete_ne by done. by rewrite !lookup_insert_ne by done.
Qed.

(** X17. With the source index also named as the target, a run on the
    reference cluster never succeeds, and it leaves the cluster as it
    found it: either the create is refused, or the index just created is
    deleted again and the alias update finds no index. *)
Theorem same_source_and_target_fails (self : Reindexer) (c : es_state) :
  self.(__source_index) = self.(__target_index) →
  is_ok (outcome (reindex (es_handle validate) self c)) = false
  ∧ final (reindex (es_handle validate) self c) = c.
Proof.
  intros Hst. destruct (self.(__body)) as [body|] eqn:Hb.
  2: { by rewrite (reindex_body_unset _ self c Hb). }
  rewrite (reindex_steps _ self body c Hb).
  unfold create_request, copy_request, delete_request, alias_request.
  cbn [es_handle]. rewrite decode_alias_body, Hst.
  set (t := self.(__target_index)).
  destruct (c !! t) as [?|] eqn:Ht; [done|].
  case_bool_decide; [|done].
  destruct (validate t body) as [[]|x]; [|done].
  rewrite !lookup_insert_eq.
  cbn [apply_actions apply_action mbind result_bind].
  rewrite lookup_delete_eq. split; [done|]. unfold final. simpl.
  rewrite insert_insert_eq. by apply delete_insert_id.
Qed.

(** X18. [reindex] undoes nothing. When a run on the reference cluster
    fails at the alias update, the source index is already deleted and
    stays deleted, and the indices other than source and target are as
    they were. *)
Theorem failed_alias_update_after_delete (self : Reindexer) (c : es_state)
    (e : exn) :
  outcome (reindex (es_handle validate) self c) = Raise e →
  length (trace (reindex (es_handle validate) self c)) = 4%nat →
  let c' := final (reindex (es_handle validate) self c) in
  c' !! self.(__source_index) = None
  ∧ ∀ i, i ≠ self.(__source_index) → i ≠ self.(__target_index) →
         c' !! i = c !! i.
Proof.
  destruct (self.(__body)) as [body|] eqn:Hb.
  2: { by rewrite (reindex_body_unset _ self c Hb). }
  rewrite (reindex_steps _ self body c Hb).
  destruct (es_handle validate (create_request self body) c)
    as [[[]|x1] c1] eqn:H1; [|done].
  destruct (es_handle validate (copy_request self) c1)
    as [[[]|x2] c2] eqn:H2; [|done].
  destruct (es_handle validate (delete_request self) c2)
    as [[[]|x3] c3] eqn:H3; [|done].
  destruct (es_handle validate (alias_request self) c3)
    as [[[]|x4] c4] eqn:H4; [done|].
  intros _ _. simpl. apply es_refusal_changes_nothing in H4. subst c4.
  unfold create_request, copy_request, delete_request in *.
  cbn [es_handle] in H1, H2, H3.
  repeat case_match; simplify_eq; split;
    try apply lookup_delete_eq; intros i His Hit;
    rewrite lookup_delete_ne by done; by rewrite ?lookup_insert_ne by done.
Qed.

(** X19. When source and target are concrete names, the source names
    no index and no alias, and the target can be created, a run on the
    reference cluster fails at the copy with the not-found error and
    leaves the empty target index behind. *)
Theorem missing_source_leaves_target (self : Reindexer) (body : json)
    (c : es_state) :
  self.(__body) = Some body →
  concrete_name self.(__source_index) = true →
  concrete_name self.(__target_index) = true →
  c !! self.(__source_index) = None →
  resolve self.(__source_index) c = ∅ →
  self.(__source_index) ∉ body_aliases body →
  c !! self.(__target_index) = None →
  resolve self.(__target_index) c = ∅ →
  validate self.(__target_index) body = Ok () →
  self.(__source_index) ≠ self.(__target_index) →
  let c1 := <[ self.(__target_index) := EsIndex body ∅ (body_aliases body) ]> c in
  reindex (es_handle validate) self c
  = (Raise (NotFoundError "index_not_found_exception"),
     [Event (create_request self body) (Ok ()) c1;
      Event (copy_request self)
        (Raise (NotFoundError "index_not_found_exception")) c1], c1).
Proof.
  intros Hb _ _ Hs _ _ Ht Hr Hv Hst. rewrite (reindex_steps _ self body c Hb).
  unfold create_request, copy_request. cbn [es_handle].
  rewrite Ht, bool_decide_eq_true_2, Hv by done.
  rewrite lookup_insert_ne by done. by rewrite Hs.
Qed.

(** X20. When the source index exists under a concrete name, the
    delete of a run on the reference cluster names it and is not refused:
    the create and the copy that precede it leave the source index in
    place. *)
Theorem delete_answered_normally (self : Reindexer) (c : es_state)
    (i : nat) (ev : event es_state) (name : string) :
  concrete_name self.(__source_index) = true →
  is_Some (c !! self.(__source_index)) →
  trace (reindex (es_handle validate) self c) !! i = Some ev →
  ev_request ev = IndicesDelete name →
  ev_outcome ev = Ok () ∧ name = self.(__source_index).
Proof.
  intros _ _. destruct (self.(__body)) as [body|] eqn:Hb.
  2: { by rewrite (reindex_body_unset _ self c Hb). }
  rewrite (reindex_steps _ self body c Hb).
  destruct (es_handle validate (create_request self body) c)
    as [[[]|x1] c1] eqn:H1.
  2: { destruct i as [|[|]]; simpl; intros [= <-]; done. }
  destruct (es_handle validate (copy_request self) c1)
    as [[[]|x2] c2] eqn:H2.
  2: { destruct i as [|[|[|]]]; simpl; intros [= <-]; done. }
  assert (Hs : is_Some (c2 !! self.(__source_index))).
  { unfold copy_request in H2. cbn [es_handle] in H2.
    destruct (c1 !! self.(__source_index)) as [src|] eqn:Hs; [|done].
    repeat case_match; simplify_eq; try by eexists.
    all: destruct (decide (self.(__target_index) = self.(__source_index)))
      as [->|Hne];
      [rewrite lookup_insert_eq|rewrite lookup_insert_ne by done];
      by eexists. }
  destruct Hs as [six Hs].
  unfold delete_request at 1 2. cbn [es_handle]. rewrite Hs.
  destruct (es_handle validate (alias_request self) _) as [r4 c4].
  destruct i as [|[|[|[|]]]]; simpl; intros [= <-]; try done.
  simpl. by intros [= <-].
Qed.

End MoreReferenceRuns.

(** ** The further properties on the sample data *)

Lemma mapping_keys_witness :
  __get_mappings JsonRef.loads invoices orders_fs = Ok invoices_mapping ∧
  is_Some (dict_get invoices.(__target_type) invoices_mapping) ∧
  (invoices_mapping.*1 = [invoices.(__target_type)]
   ∨ invoices_mapping.*1
     = [invoices.(__target_type); invoices.(__source_type)]).
Proof.
  split; [vm_compute; reflexivity|].
  apply (mapping_keys JsonRef.loads invoices orders_fs invoices_mapping).
  vm_compute. reflexivity.
Defined.

Lemma failed_create_mapping_keeps_instance_witness :
  (create_mapping JsonRef.loads orders_ready empty_fs).1
  = Raise (FileNotFoundError "mapping.json") ∧
  (create_mapping JsonRef.loads orders_ready empty_fs).2 = orders_ready ∧
  getMapping (create_mapping JsonRef.loads orders_ready empty_fs).2
  = getMapping orders_ready.
Proof.
  split; [vm_compute; reflexivity|].
  apply (failed_create_mapping_keeps_instance JsonRef.loads orders_ready
           empty_fs (FileNotFoundError "mapping.json")).
  vm_compute. reflexivity.
Defined.

Lemma create_mapping_missing_file_witness :
  empty_fs !! orders.(__mapping_file) = None ∧
  create_mapping JsonRef.loads orders empty_fs
  = (Raise (FileNotFoundError orders.(__mapping_file)), orders).
Proof.
  split; [reflexivity|].
  apply (create_mapping_missing_file JsonRef.loads orders empty_fs).
  reflexivity.
Defined.

Lemma create_mapping_blank_file_witness :
  blank_fs !! orders.(__mapping_file)
  = Some (String newline ("  " +:+ String newline "")) ∧
  create_mapping JsonRef.loads orders blank_fs
  = (Ok (), set_body orders
              (JObj [("mappings", JObj [(orders.(__target_type), JObj [])])])).
Proof.
  split; [reflexivity|].
  apply (create_mapping_blank_file JsonRef.loads orders blank_fs
           (String newline ("  " +:+ String newline ""))).
  - reflexivity.
  - vm_compute. repeat constructor.
Defined.

Lemma create_mapping_ignores_body_witness :
  same_fields orders_ready orders ∧
  (create_mapping JsonRef.loads orders_ready null_fs).1
  = (create_mapping JsonRef.loads orders null_fs).1 ∧
  ((create_mapping JsonRef.loads orders_ready null_fs).1 = Ok () →
   (create_mapping JsonRef.loads orders_ready null_fs).2
   = (create_mapping JsonRef.loads orders null_fs).2).
Proof.
  assert (H : same_fields orders_ready orders) by (repeat split).
  split; [exact H|].
  apply (create_mapping_ignores_body JsonRef.loads orders_ready orders null_fs H).
Defined.

Lemma reindex_sends_mapping_witness :
  (create_mapping JsonRef.loads orders orders_fs).1 = Ok () ∧
  ∃ body ev rest,
    getMapping (create_mapping JsonRef.loads orders orders_fs).2 = Ok body ∧
    trace (reindex_method ref_clients (es_handle lenient)
             (create_mapping JsonRef.loads orders orders_fs).2 cluster1)
    = ev :: rest ∧
    ev_request ev = IndicesCreate orders.(__target_index) body.
Proof.
  split; [vm_compute; reflexivity|].
  apply (reindex_sends_mapping (es_handle lenient) JsonRef.loads ref_clients
           orders orders_fs cluster1).
  vm_compute. reflexivity.
Defined.

Lemma successful_run_state_witness :
  outcome (reindex (es_handle lenient) orders_ready cluster0) = Ok () ∧
  let c' := final (reindex (es_handle lenient) orders_ready cluster0) in
  ∃ body src,
    orders_ready.(__body) = Some body ∧
    cluster0 !! orders_ready.(__source_index) = Some src ∧
    c' !! orders_ready.(__target_index)
    = Some (EsIndex body src.(ix_docs)
              ({[ orders_ready.(__alias) ]} ∪ body_aliases body)) ∧
    ∀ i, i ≠ orders_ready.(__source_index) →
         i ≠ orders_ready.(__target_index) → c' !! i = cluster0 !! i.
Proof.
  split; [vm_compute; reflexivity|].
  apply (successful_run_state lenient orders_ready cluster0).
  vm_compute. reflexivity.
Defined.

Lemma same_source_and_target_fails_witness :
  in_place.(__source_index) = in_place.(__target_index) ∧
  is_ok (outcome (reindex (es_handle lenient) in_place empty_cluster)) = false ∧
  final (reindex (es_handle lenient) in_place empty_cluster) = empty_cluster.
Proof.
  split; [reflexivity|].
  apply (same_source_and_target_fails lenient in_place empty_cluster).
  reflexivity.
Defined.

(** With source and target the same and no index there, all four
    requests are sent and the last one fails. *)
Example in_place_run :
  answers (trace (reindex (es_handle lenient) in_place empty_cluster))
  = [(create_request in_place orders_body, Ok ());
     (copy_request in_place, Ok ());
     (delete_request in_place, Ok ());
     (alias_request in_place,
      Raise (NotFoundError "index_not_found_exception"))].
Proof. vm_compute. reflexivity. Qed.

Lemma failed_alias_update_after_delete_witness :
  outcome (reindex (es_handle lenient) misnamed cluster1)
  = Raise (RequestError "invalid_alias_name_exception") ∧
  length (trace (reindex (es_handle lenient) misnamed cluster1)) = 4%nat ∧
  let c' := final (reindex (es_handle lenient) misnamed cluster1) in
  c' !! misnamed.(__source_index) = None
  ∧ ∀ i, i ≠ misnamed.(__source_index) → i ≠ misnamed.(__target_index) →
         c' !! i = cluster1 !! i.
Proof.
  split; [vm_compute; reflexivity|]. split; [vm_compute; reflexivity|].
  apply (failed_alias_update_after_delete lenient misnamed cluster1
           (RequestError "invalid_alias_name_exception"));
    vm_compute; reflexivity.
Defined.

Lemma missing_source_leaves_target_witness :
  concrete_name orders_ready.(__source_index) = true ∧
  concrete_name orders_ready.(__target_index) = true ∧
  let c1 : es_state :=
    <[ orders_ready.(__target_index)
       := EsIndex orders_body ∅ (body_aliases orders_body) ]> empty_cluster in
  reindex (es_handle lenient) orders_ready empty_cluster
  = (Raise (NotFoundError "index_not_found_exception"),
     [Event (create_request orders_ready orders_body) (Ok ()) c1;
      Event (copy_request orders_ready)
        (Raise (NotFoundError "index_not_found_exception")) c1], c1).
Proof.
  split; [reflexivity|]. split; [reflexivity|].
  apply (missing_source_leaves_target lenient orders_ready orders_body
           empty_cluster); try (vm_compute; reflexivity).
  - unfold orders_body, body_aliases. simpl. apply not_elem_of_empty.
  - vm_compute. discriminate.
Defined.

Lemma delete_answered_normally_witness :
  concrete_name orders_ready.(__source_index) = true ∧
  is_Some (cluster1 !! orders_ready.(__source_index)) ∧
  trace run1 !! 2%nat = Some run1_delete ∧
  ev_request run1_delete = IndicesDelete "orders_v1" ∧
  ev_outcome run1_delete = Ok () ∧
  "orders_v1" = orders_ready.(__source_index).
Proof.
  assert (H : is_Some (cluster1 !! orders_ready.(__source_index)))
    by (vm_compute; eexists; reflexivity).
  split; [reflexivity|]. split; [exact H|].
  split; [vm_compute; reflexivity|]. split; [reflexivity|].
  apply (delete_answered_normally lenient orders_ready cluster1 2 run1_delete
           "orders_v1").
  - reflexivity.
  - exact H.
  - vm_compute. reflexivity.
  - reflexivity.
Defined.
